(** * The external-dependency bundler of [scripts/bundles/sys-node.ts]

    A shallow embedding of [bundleExternal], of the webpack [externals]
    hook it installs and of [sysNodeExternalBundles], together with the
    properties the design document states about them.

    Layout:
    - [JsRegExp]: the fragment of JavaScript regular expressions that the
      hook's pattern uses, with a backtracking matcher;
    - the [externals] hook as a function of the closed-over whitelist, the
      request and the [require.resolve] of the running process;
    - a flat file system, the operations the bundler performs on it, and a
      free monad [Prog] over these operations;
    - [bundleExternal] as a program of that monad, run either alone
      ([exec]) or interleaved with its siblings under [Promise.all]
      ([run_schedule]). *)

From Stdlib Require Import String Ascii List Bool Arith Lia.
From stdpp Require Import base gmap strings list.
Import ListNotations.

Local Open Scope string_scope.
Local Open Scope list_scope.

(** ** JavaScript regular expressions (the fragment in use) *)

Module JsRegExp.

(** Abstract syntax: enough for [/^(\.{0,2})\//]. *)
Inductive regex : Type :=
| Bol                              (* ^  (no multiline flag) *)
| Chr (c : ascii)                  (* a literal or escaped character *)
| Cat (r1 r2 : regex)              (* r1 r2 *)
| Rep (lo hi : nat) (r : regex)    (* r{lo,hi}, greedy *)
| Grp (r : regex).                 (* ( r ) *)

(** A cursor is the index reached and the input still to be read. *)
Definition cursor : Type := nat * string.

(** [rep_from m hi lo cur]: between [lo] and [hi] iterations of the
    matcher [m], longest first. *)
Definition rep_from (m : cursor -> list cursor) : nat -> nat -> cursor -> list cursor :=
  fix go (hi lo : nat) (cur : cursor) : list cursor :=
    match hi with
    | 0 => match lo with 0 => [cur] | S _ => [] end
    | S hi' =>
        flat_map (go hi' (pred lo)) (m cur)
          ++ match lo with 0 => [cur] | S _ => [] end
    end.

(** All the ways [r] matches at [cur], in backtracking order. *)
Fixpoint rmatch (r : regex) (cur : cursor) : list cursor :=
  match r with
  | Bol => match fst cur with 0 => [cur] | S _ => [] end
  | Chr c =>
      match snd cur with
      | String c' rest => if Ascii.eqb c c' then [(S (fst cur), rest)] else []
      | EmptyString => []
      end
  | Cat r1 r2 => flat_map (rmatch r2) (rmatch r1 cur)
  | Rep lo hi r' => rep_from (rmatch r') hi lo cur
  | Grp r' => rmatch r' cur
  end.

(** [RegExp.prototype.exec] without the [g] flag: the first start index
    at which the pattern matches. *)
Fixpoint search (r : regex) (pos : nat) (s : string) : option cursor :=
  match rmatch r (pos, s) with
  | c :: _ => Some c
  | [] =>
      match s with
      | EmptyString => None
      | String _ rest => search r (S pos) rest
      end
  end.

(** Truthiness of [s.match(r)]: [null] when nothing matches. *)
Definition truthy_match (s : string) (r : regex) : bool :=
  match search r 0 s with
  | Some _ => true
  | None => false
  end.

End JsRegExp.

(** ** Values that cross the JavaScript boundary *)

(** [null] and [undefined], which the hook passes as the callback's first
    argument. *)
Inductive JsNullish : Type := JsNull | JsUndefined.

(** Exceptions raised by the runtime under the bundler. *)
Inductive JsException : Type :=
| ModuleNotFound (request : string)   (* require.resolve: MODULE_NOT_FOUND *)
| TypeError (what : string)           (* property access on undefined *)
| ENOENT (path : string)              (* no such file *)
| EEXIST (path : string).             (* a file is in the way of a directory *)

(** What one invocation of the hook does: it calls [callback(err, result)]
    (where [None] is [undefined]) or it throws. *)
Inductive HookOutcome : Type :=
| Called (err : JsNullish) (result : option string)
| Thrown (e : JsException).

(** The design document's vocabulary for a hook outcome. *)
Inductive ClassificationResult : Type :=
| Internal
| Redirect (newModuleId : string)
| External (moduleId : string).

(** ** The externals hook *)

(** [/^(\.{0,2})\//] *)
Definition path_pattern : JsRegExp.regex :=
  JsRegExp.Cat JsRegExp.Bol
    (JsRegExp.Cat (JsRegExp.Grp (JsRegExp.Rep 0 2 (JsRegExp.Chr ".")))
                  (JsRegExp.Chr "/")).

(** [new Set(['child_process', 'os', 'typescript'])] *)
Definition whitelist : gset string :=
  {[ "child_process"; "os"; "typescript" ]}.

Section Externals.

(** [require.resolve] of the process that runs the build: the resolved
    file name, or [None] where it throws. *)
Variable require_resolve : string -> option string.

(** The [externals(_context, request, callback)] function of the webpack
    configuration; [wl] is the [whitelist] it closes over. *)
Definition externals (wl : gset string) (_context request : string) : HookOutcome :=
  if JsRegExp.truthy_match request path_pattern then
    (* absolute and relative paths are not externals *)
    Called JsNull None
  else if bool_decide (request = "@stencil/core/mock-doc") then
    Called JsNull (Some "../../mock-doc")
  else if bool_decide (request ∈ wl) then
    (* we specifically do not want to bundle these imports *)
    match require_resolve request with
    | None => Thrown (ModuleNotFound request)
    | Some _ => Called JsNull (Some request)
    end
  else
    (* bundle this import *)
    Called JsUndefined None.

End Externals.

(** How webpack reads the callback's arguments: no result means "bundle
    it", a string result means "leave a [require] of that module id". An
    outcome that throws classifies nothing. *)
Definition classification (request : string) (o : HookOutcome) : option ClassificationResult :=
  match o with
  | Called _ None => Some Internal
  | Called _ (Some m) =>
      Some (if bool_decide (m = request) then External m else Redirect m)
  | Thrown _ => None
  end.

(** The shapes of a path by their first characters: [/...], [./...] and
    [../...]. *)
Definition path_shaped (request : string) : bool :=
  String.prefix "/" request || String.prefix "./" request || String.prefix "../" request.

(** ** Build options and the webpack interface *)

Record OutputDirs : Type := {
  sysNodeDir : string;
  devServerDir : string;
}.

(** The fields of [BuildOptions] (declared in [../utils/options]) that the
    bundler reads. *)
Record BuildOptions : Type := {
  srcDir : string;
  transpiledDir : string;
  nodeModulesDir : string;
  bundleHelpersDir : string;
  output : OutputDirs;
  isProd : bool;
}.

Record WebpackOutput : Type := {
  path : string;
  filename : string;
  libraryTarget : string;
}.

Record WebpackNode : Type := {
  node__dirname : bool;
  node__filename : bool;
  node_process : bool;
  node_Buffer : bool;
}.

Record WebpackConfig : Type := {
  entry : string;
  wp_output : WebpackOutput;
  target : string;
  node : WebpackNode;
  wp_externals : string -> string -> HookOutcome;
  resolve_alias : list (string * string);
  optimization_minimize : bool;
  mode : string;
}.

(** A JavaScript [Error]; an empty [message] is falsy. *)
Record JsError : Type := { message : string }.

(** The two observations the callback makes of webpack's [stats]:
    [stats.hasErrors()] and [stats.toJson({ errors: true }).errors]. *)
Record Stats : Type := {
  hasErrors : bool;
  errors : list string;
}.

(** One run of the bundling backend: the bytes it emits at
    [output.path/output.filename], if any, and the two arguments it hands
    to the callback ([None] is [null] or [undefined]). *)
Record BackendRun : Type := {
  emitted : option string;
  cb_err : option JsError;
  cb_stats : option Stats;
}.

(** [terser.minify(code)] answers [{ error }] or [{ code }]. *)
Inductive MinifyOutput : Type :=
| MinifyFailed (error : JsError)
| Minified (code : string).

(** The value a job's promise is rejected with, tagged by the call of
    [rejectBundle] that passes it. *)
Inductive BundleError : Type :=
| CompileError (err : JsError)                  (* rejectBundle(err) *)
| BundleDiagnosticError (webpackError : string) (* rejectBundle(webpackError) *)
| MinifyError (error : JsError).                (* rejectBundle(minifyResults.error) *)

(** How a job settles its promise: [resolveBundle()] or
    [rejectBundle(reason)]. *)
Inductive Settlement : Type :=
| Resolve
| Reject (reason : BundleError).

(** A promise as seen from outside. *)
Inductive PromiseState (R : Type) : Type :=
| Pending
| Fulfilled
| Rejected (reason : R).
Arguments Pending {R}.
Arguments Fulfilled {R}.
Arguments Rejected {R} reason.

(** ** Operations and programs *)

(** The effects of the bundler, indexed by what they answer. *)
Inductive Op : Type -> Type :=
| EnsureDir (dir : string) : Op unit              (* await fs.ensureDir(dir) *)
| ExistsSync (p : string) : Op bool               (* fs.existsSync(p) *)
| CopyFile (src dest : string) : Op unit          (* await fs.copyFile(src, dest) *)
| Copy (src dest : string) : Op unit              (* await fs.copy(src, dest) *)
| ReadFile (p : string) : Op string               (* await fs.readFile(p, 'utf8') *)
| WriteFile (p data : string) : Op unit           (* await fs.writeFile(p, data) *)
| Webpack (cfg : WebpackConfig) : Op (option JsError * option Stats)
| TerserMinify (code : string) : Op MinifyOutput. (* terser.minify(code) *)

(** An operation that was performed. *)
Inductive Event : Type :=
| Ev {X : Type} (op : Op X).

(** Programs over [Op]: return, throw, or perform an operation and go on
    with its answer. *)
Inductive Prog (A : Type) : Type :=
| Ret (a : A)
| Raise (e : JsException)
| Do {X : Type} (op : Op X) (k : X -> Prog A).
Arguments Ret {A} a.
Arguments Raise {A} e.
Arguments Do {A X} op k.

Fixpoint prog_bind {A B : Type} (f : A -> Prog B) (p : Prog A) : Prog B :=
  match p with
  | Ret a => f a
  | Raise e => Raise e
  | Do op k => Do op (fun x => prog_bind f (k x))
  end.

#[export] Instance prog_ret : MRet Prog := fun A a => Ret a.
#[export] Instance prog_mbind : MBind Prog := fun A B f p => prog_bind f p.

(** Perform one operation. *)
Definition call {X : Type} (op : Op X) : Prog X := Do op Ret.

(** ** The world: a flat file system and a log *)

(** Files are a finite map from path to contents; directories are
    implicit. [trace] lists the operations performed, oldest first. *)
Record World : Type := {
  files : gmap string string;
  trace : list Event;
}.

Definition newline : string := String (ascii_of_nat 10) EmptyString.

Section Bundler.

(** *** The environment of a build *)

(** [join] of node's [path] module. *)
Variable join : list string -> string.

(** [require.resolve], as in [Externals]. *)
Variable require_resolve : string -> option string.

(** The bundling backend: what a run of [webpack(cfg, callback)] does,
    given the files it finds. *)
Variable webpack : WebpackConfig -> gmap string string -> BackendRun.

(** [terser.minify]. *)
Variable terser_minify : string -> MinifyOutput.

(** *** Semantics of the operations *)

Definition log (ev : Event) (w : World) : World :=
  {| files := files w; trace := trace w ++ [ev] |}.

Definition put_file (p data : string) (w : World) : World :=
  {| files := <[p := data]> (files w); trace := trace w |}.

(** The answer of an operation on the files, and the files it leaves;
    [inr] is a thrown exception (for an awaited operation: a rejected
    promise). *)
Definition answer {X : Type} (op : Op X) (w : World) : World * (X + JsException) :=
  match op in Op X return World * (X + JsException) with
  | EnsureDir dir =>
      match files w !! dir with
      | Some _ => (w, inr (EEXIST dir))
      | None => (w, inl tt)
      end
  | ExistsSync p =>
      (w, inl (bool_decide (is_Some (files w !! p))))
  | CopyFile src dest | Copy src dest =>
      match files w !! src with
      | Some data => (put_file dest data w, inl tt)
      | None => (w, inr (ENOENT src))
      end
  | ReadFile p =>
      match files w !! p with
      | Some data => (w, inl data)
      | None => (w, inr (ENOENT p))
      end
  | WriteFile p data =>
      (put_file p data w, inl tt)
  | Webpack cfg =>
      let run := webpack cfg (files w) in
      let w' :=
        match emitted run with
        | Some bytes =>
            put_file (join [path (wp_output cfg); filename (wp_output cfg)]) bytes w
        | None => w
        end in
      (w', inl (cb_err run, cb_stats run))
  | TerserMinify code =>
      (w, inl (terser_minify code))
  end.

(** Perform an operation: log it, then answer it. *)
Definition perform {X : Type} (op : Op X) (w : World) : World * (X + JsException) :=
  answer op (log (Ev op) w).

(** Run a program to its end. *)
Fixpoint exec {A : Type} (p : Prog A) (w : World) : World * (A + JsException) :=
  match p with
  | Ret a => (w, inl a)
  | Raise e => (w, inr e)
  | Do op k =>
      match perform op w with
      | (w', inl x) => exec (k x) w'
      | (w', inr e) => (w', inr e)
      end
  end.

(** *** bundleExternal *)

(** The configuration object handed to [webpack]. *)
Definition webpack_config (opts : BuildOptions) (outputDir entryFileName : string)
    (wl : gset string) : WebpackConfig :=
  {| entry := join [srcDir opts; "sys"; "node"; "bundles"; entryFileName];
     wp_output :=
       {| path := outputDir;
          filename := entryFileName;
          libraryTarget := "commonjs" |};
     target := "node";
     node :=
       {| node__dirname := false;
          node__filename := false;
          node_process := false;
          node_Buffer := false |};
     wp_externals := externals require_resolve wl;
     resolve_alias :=
       [ ("@utils", join [transpiledDir opts; "utils"; "index.js"]);
         ("postcss", join [nodeModulesDir opts; "postcss"]);
         ("source-map", join [nodeModulesDir opts; "source-map"]);
         ("chalk", join [bundleHelpersDir opts; "empty.js"]) ];
     optimization_minimize := false;
     mode := "production" |}.

(** The [else] branch of the callback: webpack raised no error (with a
    message), so its [stats] are examined. *)
Definition on_stats (opts : BuildOptions) (outputFile cachedFile : string)
    (stats : option Stats) : Prog Settlement :=
  match stats with
  | None =>
      (* stats.toJson on undefined *)
      Raise (TypeError "stats.toJson")
  | Some st =>
      if hasErrors st then
        let webpackError := String.concat newline (errors st) in
        mret (Reject (BundleDiagnosticError webpackError))
      else if isProd opts then
        code ← call (ReadFile outputFile);
        minifyResults ← call (TerserMinify code);
        match minifyResults with
        | MinifyFailed error => mret (Reject (MinifyError error))
        | Minified code' =>
            call (WriteFile outputFile code');;
            mret Resolve
        end
      else
        call (CopyFile outputFile cachedFile);;
        mret Resolve
  end.

(** The callback [async (err, stats) => { ... }] given to [webpack];
    [err && err.message] holds of an error whose message is not empty. *)
Definition on_compiled (opts : BuildOptions) (outputFile cachedFile : string)
    (err : option JsError) (stats : option Stats) : Prog Settlement :=
  match err with
  | Some e =>
      if negb (String.eqb (message e) "") then mret (Reject (CompileError e))
      else on_stats opts outputFile cachedFile stats
  | None => on_stats opts outputFile cachedFile stats
  end.

(** The call of [webpack] and its callback. *)
Definition compile (opts : BuildOptions) (outputDir entryFileName : string)
    (outputFile cachedFile : string) : Prog Settlement :=
  r ← call (Webpack (webpack_config opts outputDir entryFileName whitelist));
  on_compiled opts outputFile cachedFile r.1 r.2.

(** The executor of the promise that [bundleExternal] returns. A program
    that ends in [Raise] is an executor (or callback) whose own promise
    is rejected, which nothing observes: the job's promise then stays
    pending. *)
Definition bundleExternal (opts : BuildOptions)
    (outputDir cachedDir entryFileName : string) : Prog Settlement :=
  let outputFile := join [outputDir; entryFileName] in
  let cachedFile := join [cachedDir; entryFileName] in
  if negb (isProd opts) then
    cachedExists ← call (ExistsSync cachedFile);
    if cachedExists : bool then
      call (CopyFile cachedFile outputFile);;
      mret Resolve
    else compile opts outputDir entryFileName outputFile cachedFile
  else compile opts outputDir entryFileName outputFile cachedFile.

(** The state of the job's promise once its executor has run to its
    end. An exception ends the [async] executor, or the [async] callback,
    with a rejected promise of its own that nothing awaits: neither
    [resolveBundle] nor [rejectBundle] is called, and the job's promise is
    never settled. *)
Definition settled (r : Settlement + JsException) : PromiseState BundleError :=
  match r with
  | inl Resolve => Fulfilled
  | inl (Reject reason) => Rejected reason
  | inr _ => Pending
  end.

(** One job, run alone: the world it leaves and its promise. *)
Definition run_job (opts : BuildOptions) (outputDir cachedDir entryFileName : string)
    (w : World) : World * PromiseState BundleError :=
  let (w', r) := exec (bundleExternal opts outputDir cachedDir entryFileName) w in
  (w', settled r).

(** *** Promise.all over jobs in flight *)

(** The jobs as far as they have run, the world they share, and the
    promise [Promise.all] returned. *)
Record Batch : Type := {
  world : World;
  jobs : list (Prog Settlement);
  all : PromiseState BundleError;
}.

Definition is_resolved (job : Prog Settlement) : bool :=
  match job with
  | Ret Resolve => true
  | _ => false
  end.

Definition rejection (job : Prog Settlement) : option BundleError :=
  match job with
  | Ret (Reject reason) => Some reason
  | _ => None
  end.

(** [Promise.all] reacts to a job that has become [job']: the first
    rejection rejects it, the last fulfilment fulfils it, and once
    settled it stays as it is. *)
Definition react (job' : Prog Settlement) (jobs' : list (Prog Settlement))
    (p : PromiseState BundleError) : PromiseState BundleError :=
  match p with
  | Pending =>
      match job' with
      | Ret (Reject reason) => Rejected reason
      | Ret Resolve => if forallb is_resolved jobs' then Fulfilled else Pending
      | _ => Pending
      end
  | _ => p
  end.

(** [Promise.all(jobs)] at the moment it is called. *)
Definition promise_all (w : World) (js : list (Prog Settlement)) : Batch :=
  {| world := w;
     jobs := js;
     all :=
       match list_find (fun job => is_Some (rejection job)) js with
       | Some (_, Ret (Reject reason)) => Rejected reason
       | _ => if forallb is_resolved js then Fulfilled else Pending
       end |}.

(** Job [i] performs its next operation; the other jobs wait. Operations
    are atomic, and any job may be resumed at any time: the schedules
    include every order in which the event loop can complete the awaited
    operations. A job that has ended is not resumed. *)
Definition step (i : nat) (b : Batch) : Batch :=
  match jobs b !! i with
  | Some (Do op k) =>
      let (w', r) := perform op (world b) in
      let job' := match r with inl x => k x | inr e => Raise e end in
      let jobs' := <[i := job']> (jobs b) in
      {| world := w'; jobs := jobs'; all := react job' jobs' (all b) |}
  | _ => b
  end.

(** The event loop's choices, as the list of the jobs it resumes. *)
Definition run_schedule (schedule : list nat) (b : Batch) : Batch :=
  foldl (fun b i => step i b) b schedule.

(** *** sysNodeExternalBundles *)

Definition external_bundles (opts : BuildOptions) (cachedDir : string)
    : list (Prog Settlement) :=
  [ bundleExternal opts (sysNodeDir (output opts)) cachedDir "autoprefixer.js";
    bundleExternal opts (sysNodeDir (output opts)) cachedDir "glob.js";
    bundleExternal opts (sysNodeDir (output opts)) cachedDir "graceful-fs.js";
    bundleExternal opts (sysNodeDir (output opts)) cachedDir "node-fetch.js";
    bundleExternal opts (sysNodeDir (output opts)) cachedDir "prompts.js";
    bundleExternal opts (devServerDir (output opts)) cachedDir "open-in-editor-api.js";
    bundleExternal opts (devServerDir (output opts)) cachedDir "ws.js" ].

(** The two copies that follow the bundles. *)
Definition copy_assets (opts : BuildOptions) : Prog unit :=
  (* open-in-editor's visualstudio.vbs file *)
  let visualstudioVbsSrc :=
    join [nodeModulesDir opts; "open-in-editor"; "lib"; "editors"; "visualstudio.vbs"] in
  let visualstudioVbsDesc := join [devServerDir (output opts); "visualstudio.vbs"] in
  call (Copy visualstudioVbsSrc visualstudioVbsDesc);;
  (* copy open's xdg-open file *)
  let xdgOpenSrcPath := join [nodeModulesDir opts; "open"; "xdg-open"] in
  let xdgOpenDestPath := join [devServerDir (output opts); "xdg-open"] in
  call (Copy xdgOpenSrcPath xdgOpenDestPath).

(** The promise of the [async] function: an exception thrown under an
    [await] rejects it; it waits for [Promise.all] as long as that is
    pending. *)
Definition sysNodeExternalBundles (opts : BuildOptions) (schedule : list nat)
    (w : World) : World * PromiseState (BundleError + JsException) :=
  let cachedDir := join [transpiledDir opts; "sys-node-bundle-cache"] in
  match perform (EnsureDir cachedDir) w with
  | (w1, inr e) => (w1, Rejected (inr e))
  | (w1, inl _) =>
      let b := run_schedule schedule (promise_all w1 (external_bundles opts cachedDir)) in
      match all b with
      | Pending => (world b, Pending)
      | Rejected reason => (world b, Rejected (inl reason))
      | Fulfilled =>
          match exec (copy_assets opts) (world b) with
          | (w2, inl _) => (w2, Fulfilled)
          | (w2, inr e) => (w2, Rejected (inr e))
          end
      end
  end.

End Bundler.

(** ** What a trace shows *)

(** The operations of a trace that look at the path [p]. *)
Definition reads_path (p : string) (ev : Event) : Prop :=
  match ev with
  | Ev (ExistsSync q) | Ev (ReadFile q) | Ev (CopyFile q _) | Ev (Copy q _) => q = p
  | _ => False
  end.

(** The operations of a trace that write the path [p]. *)
Definition writes_path (p : string) (ev : Event) : Prop :=
  match ev with
  | Ev (WriteFile q _) | Ev (CopyFile _ q) | Ev (Copy _ q) => q = p
  | _ => False
  end.

Definition is_exists_sync (ev : Event) : Prop :=
  match ev with Ev (ExistsSync _) => True | _ => False end.

Definition is_copy_file (ev : Event) : Prop :=
  match ev with Ev (CopyFile _ _) => True | _ => False end.

Definition is_write_file (ev : Event) : Prop :=
  match ev with Ev (WriteFile _ _) => True | _ => False end.

Definition is_webpack (ev : Event) : Prop :=
  match ev with Ev (Webpack _) => True | _ => False end.

Definition is_ensure_dir (ev : Event) : Prop :=
  match ev with Ev (EnsureDir _) => True | _ => False end.

(** The events [w'] has logged since [w]. *)
Definition events_since (w w' : World) : list Event :=
  drop (length (trace w)) (trace w').

(** The backend runs on which the callback takes its success branch: no
    error with a message, and stats without errors. *)
Definition compile_ok (run : BackendRun) : bool :=
  match cb_err run with
  | Some e => String.eqb (message e) ""
  | None => true
  end
  && match cb_stats run with
     | Some st => negb (hasErrors st)
     | None => false
     end.

(** A program that never performs an operation of the kind [P]. *)
Fixpoint never {A : Type} (P : Event -> Prop) (p : Prog A) : Prop :=
  match p with
  | Ret _ | Raise _ => True
  | Do op k => ~ P (Ev op) /\ forall x, never P (k x)
  end.

(** What [Promise.all] owes its jobs: it is rejected only with the reason
    of a job that rejected, it is rejected as soon as a job has rejected,
    and it is fulfilled exactly when every job has resolved. *)
Definition reflects_jobs (p : PromiseState BundleError) (js : list (Prog Settlement)) : Prop :=
  (forall reason, p = Rejected reason ->
                  exists i, js !! i = Some (Ret (Reject reason)))
  /\ (forall i reason, js !! i = Some (Ret (Reject reason)) ->
                       exists reason', p = Rejected reason')
  /\ (p = Fulfilled <-> Forall (fun job => job = Ret Resolve) js).

(** ** What programs write, deliver and need *)

Definition is_copy (ev : Event) : Prop :=
  match ev with Ev (Copy _ _) => True | _ => False end.

Definition is_webpackb (ev : Event) : bool :=
  match ev with Ev (Webpack _) => true | _ => false end.

Definition is_terser (ev : Event) : Prop :=
  match ev with Ev (TerserMinify _) => True | _ => False end.

Definition is_read_file (ev : Event) : Prop :=
  match ev with Ev (ReadFile _) => True | _ => False end.


(** The backend [webpack] with every error that has no message replaced by
    no error at all. *)
Definition without_mute_errors
    (webpack : WebpackConfig -> gmap string string -> BackendRun)
    (cfg : WebpackConfig) (fs : gmap string string) : BackendRun :=
  let run := webpack cfg fs in
  {| emitted := emitted run;
     cb_err :=
       match cb_err run with
       | Some e => if String.eqb (message e) "" then None else Some e
       | None => None
       end;
     cb_stats := cb_stats run |}.

Section Footprints.

Variable join : list string -> string.
Variable require_resolve : string -> option string.
Variable webpack : WebpackConfig -> gmap string string -> BackendRun.
Variable terser_minify : string -> MinifyOutput.

(** The paths an operation may write. *)
Definition op_writes {X : Type} (op : Op X) : list string :=
  match op with
  | CopyFile _ dest | Copy _ dest => [dest]
  | WriteFile p _ => [p]
  | Webpack cfg => [join [path (wp_output cfg); filename (wp_output cfg)]]
  | _ => []
  end.

(** A program all of whose writes fall on paths of [S]. *)
Fixpoint writes_within {A : Type} (S : string -> Prop) (p : Prog A) : Prop :=
  match p with
  | Ret _ | Raise _ => True
  | Do op k => Forall S (op_writes op) /\ forall x, writes_within S (k x)
  end.

(** A program that, in whatever world each of its operations is performed,
    has the file [out] in place at the moment it resolves. *)
Fixpoint delivers (out : string) (p : Prog Settlement) : Prop :=
  match p with
  | Ret _ | Raise _ => True
  | Do op k =>
      forall w x,
        (perform join webpack terser_minify op w).2 = inl x ->
        (k x = Ret Resolve ->
         is_Some (files (perform join webpack terser_minify op w).1 !! out))
        /\ delivers out (k x)
  end.

(** A program that throws nothing from the world [w] on, as long as
    whatever else happens in between removes no file. *)
Fixpoint safe (p : Prog Settlement) (w : World) : Prop :=
  match p with
  | Ret _ => True
  | Raise _ => False
  | Do op k =>
      forall w',
        dom (files w) ⊆ dom (files w') ->
        match perform join webpack terser_minify op w' with
        | (w'', inl x) => safe (k x) w''
        | (_, inr _) => False
        end
  end.


(** A job that has ended: it settled its promise or threw. *)
Definition ended {A : Type} (p : Prog A) : Prop :=
  match p with
  | Do _ _ => False
  | _ => True
  end.

(** The files [sysNodeExternalBundles] may write: the seven bundles, their
    cache entries and the two assets. *)
Definition bundle_names : list (bool * string) :=
  [ (true, "autoprefixer.js"); (true, "glob.js"); (true, "graceful-fs.js");
    (true, "node-fetch.js"); (true, "prompts.js");
    (false, "open-in-editor-api.js"); (false, "ws.js") ].

Definition bundle_outputs (opts : BuildOptions) : list string :=
  map (fun '(sys, name) =>
         join [if sys : bool then sysNodeDir (output opts)
               else devServerDir (output opts); name])
      bundle_names.

Definition bundle_caches (opts : BuildOptions) : list string :=
  map (fun '(_, name) =>
         join [join [transpiledDir opts; "sys-node-bundle-cache"]; name])
      bundle_names.

Definition asset_copies (opts : BuildOptions) : list string :=
  [ join [devServerDir (output opts); "visualstudio.vbs"];
    join [devServerDir (output opts); "xdg-open"] ].

End Footprints.

(** ** The rollup bundles of sysNode *)

(** What a [resolveId] hook answers: [{ id, external }]. *)
Record ResolvedId : Type := {
  resolved_id : string;
  resolved_external : bool;
}.

(** The plugins [sysNode] lists. Those imported from [./plugins] and from
    rollup's packages are kept as the calls that make them; the plugin
    written in place carries its [resolveId]. *)
Inductive RollupPlugin : Type :=
| relativePathPlugin (moduleId relativePath : string)
| aliasPlugin (opts : BuildOptions)
| rollupResolve (preferBuiltins : bool)
| rollupCommonjs (transformMixedEsModules : bool)
| prettyMinifyPlugin (opts : BuildOptions)
| inlinePlugin (name : string) (resolveId : string -> option ResolvedId).

Record RollupOutput : Type := {
  format : string;
  file : string;
  preferConst : bool;
  freeze : bool;
}.

Record Treeshake : Type := {
  moduleSideEffects : bool;
  propertyReadSideEffects : bool;
  unknownGlobalSideEffects : bool;
}.

Record RollupOptions : Type := {
  input : string;
  rollup_output : RollupOutput;
  external : list string;
  plugins : list RollupPlugin;
  treeshake : option Treeshake;
}.

(** The [resolveId(id)] of the plugin [sysNodeWorkerAlias]; [None] is the
    [undefined] it returns by falling off its end. *)
Definition sysNodeWorkerAlias_resolveId (id : string) : option ResolvedId :=
  if String.eqb id "@stencil/core/compiler" then
    Some {| resolved_id := "../../compiler/stencil.js"; resolved_external := true |}
  else None.

Section Rollup.

Variable join : list string -> string.

Definition sysNodeBundle (opts : BuildOptions) : RollupOptions :=
  let inputFile := join [transpiledDir opts; "sys"; "node"; "index.js"] in
  let outputFile := join [sysNodeDir (output opts); "index.js"] in
  {| input := inputFile;
     rollup_output :=
       {| format := "cjs"; file := outputFile; preferConst := true; freeze := false |};
     external :=
       ["child_process"; "crypto"; "events"; "https"; "path"; "readline"; "os"; "util"];
     plugins :=
       [ relativePathPlugin "glob" "./glob.js";
         relativePathPlugin "graceful-fs" "./graceful-fs.js";
         relativePathPlugin "prompts" "./prompts.js";
         aliasPlugin opts;
         rollupResolve true;
         rollupCommonjs false;
         prettyMinifyPlugin opts ];
     treeshake :=
       Some {| moduleSideEffects := false;
               propertyReadSideEffects := false;
               unknownGlobalSideEffects := false |} |}.

Definition sysNodeWorkerBundle (opts : BuildOptions) : RollupOptions :=
  let inputWorkerFile := join [transpiledDir opts; "sys"; "node"; "worker.js"] in
  let outputWorkerFile := join [sysNodeDir (output opts); "worker.js"] in
  {| input := inputWorkerFile;
     rollup_output :=
       {| format := "cjs"; file := outputWorkerFile; preferConst := true;
          freeze := false |};
     external :=
       ["child_process"; "crypto"; "events"; "https"; "path"; "readline"; "os"; "util"];
     plugins :=
       [ inlinePlugin "sysNodeWorkerAlias" sysNodeWorkerAlias_resolveId;
         rollupResolve true;
         aliasPlugin opts;
         prettyMinifyPlugin opts ];
     treeshake := None |}.

(** [sysNode(opts)]: the two bundles, the host's first. *)
Definition sysNode (opts : BuildOptions) : list RollupOptions :=
  [sysNodeBundle opts; sysNodeWorkerBundle opts].

(** The relative paths that the plugins of a bundle redirect modules to. *)
Definition relative_paths (bundle : RollupOptions) : list string :=
  omap (fun plugin =>
          match plugin with
          | relativePathPlugin _ relativePath => Some relativePath
          | _ => None
          end)
       (plugins bundle).

End Rollup.

(** ** A sample environment

    Concrete instances of the environment, on which the statements below
    are exercised. *)

Module Sample.

Definition join : list string -> string := String.concat "/".

Definition resolve_all (request : string) : option string :=
  Some ("/usr/lib/node_modules/" +:+ request).

Definition resolve_none (request : string) : option string := None.

Definition opts (prod : bool) : BuildOptions :=
  {| srcDir := "src";
     transpiledDir := "build";
     nodeModulesDir := "node_modules";
     bundleHelpersDir := "scripts/bundles/helpers";
     output := {| sysNodeDir := "sys/node"; devServerDir := "dev-server" |};
     isProd := prod |}.

Definition no_errors : Stats := {| hasErrors := false; errors := [] |}.

(** A backend that bundles. *)
Definition webpack_ok (cfg : WebpackConfig) (fs : gmap string string) : BackendRun :=
  {| emitted := Some ("bundle of " +:+ entry cfg);
     cb_err := None;
     cb_stats := Some no_errors |}.

(** A backend that breaks down. *)
Definition webpack_crash (cfg : WebpackConfig) (fs : gmap string string) : BackendRun :=
  {| emitted := None;
     cb_err := Some {| message := "spawn ENOMEM" |};
     cb_stats := None |}.

(** A backend that breaks down with an error that has no message. *)
Definition webpack_mute_crash (cfg : WebpackConfig) (fs : gmap string string) : BackendRun :=
  {| emitted := None;
     cb_err := Some {| message := "" |};
     cb_stats := None |}.

(** A backend that reports diagnostics. *)
Definition webpack_diagnostics (cfg : WebpackConfig) (fs : gmap string string) : BackendRun :=
  {| emitted := None;
     cb_err := None;
     cb_stats :=
       Some {| hasErrors := true;
               errors := ["Module not found: left-pad"; "Unexpected token"] |} |}.

(** A backend that reports diagnostics for the entry [name] and bundles
    the others. *)
Definition webpack_failing_on (name : string)
    (cfg : WebpackConfig) (fs : gmap string string) : BackendRun :=
  if String.eqb (filename (wp_output cfg)) name
  then webpack_diagnostics cfg fs
  else webpack_ok cfg fs.

Definition terser_ok (code : string) : MinifyOutput :=
  Minified ("min(" +:+ code +:+ ")").

Definition terser_failing (code : string) : MinifyOutput :=
  MinifyFailed {| message := "Unexpected token: punc" |}.

Definition empty_world : World := {| files := ∅; trace := [] |}.

(** A world with a cache entry for [glob.js]. *)
Definition cached_world : World :=
  {| files := {[ "build/sys-node-bundle-cache/glob.js" := "cached glob" ]};
     trace := [] |}.

(** Three jobs, the second of which is refused by the backend. *)
Definition three_jobs : list (Prog Settlement) :=
  [ bundleExternal join resolve_all (opts false) "sys/node"
      "build/sys-node-bundle-cache" "autoprefixer.js";
    bundleExternal join resolve_all (opts false) "sys/node"
      "build/sys-node-bundle-cache" "glob.js";
    bundleExternal join resolve_all (opts false) "dev-server"
      "build/sys-node-bundle-cache" "ws.js" ].

(** A world that holds the two assets copied after the bundles. *)
Definition assets_world : World :=
  {| files :=
       {[ "node_modules/open-in-editor/lib/editors/visualstudio.vbs" := "vbs";
          "node_modules/open/xdg-open" := "xdg-open" ]};
     trace := [] |}.

(** Three rounds over the seven jobs. *)
Definition round_robin : list nat := List.concat (repeat (seq 0 7) 3).

End Sample.

(** * Properties *)

(** ** The pattern of the hook *)

Module JsRegExpFacts.
Import JsRegExp.

Lemma bol_only_at_start (r : regex) (s : string) (pos : nat) :
  search (Cat Bol r) (S pos) s = None.
Proof.
  revert pos. induction s as [|c s IH]; intros pos; simpl; auto.
Qed.

Lemma truthy_match_anchored (r : regex) (s : string) :
  truthy_match s (Cat Bol r) = match rmatch r (0, s) with [] => false | _ => true end.
Proof.
  unfold truthy_match. destruct s as [|c s]; simpl.
  - rewrite app_nil_r. now destruct (rmatch r (0, "")).
  - rewrite app_nil_r. destruct (rmatch r (0, String c s)); [|reflexivity].
    now rewrite bol_only_at_start.
Qed.

End JsRegExpFacts.

Lemma ascii_dec_eqb {B : Type} (x a : ascii) (t e : B) :
  match ascii_dec x a with left _ => t | right _ => e end
  = if Ascii.eqb x a then t else e.
Proof.
  destruct (ascii_dec x a) as [->|Hne].
  - now rewrite Ascii.eqb_refl.
  - apply Ascii.eqb_neq in Hne. now rewrite Hne.
Qed.

Lemma prefix_empty (s : string) : String.prefix "" s = true.
Proof. now destruct s. Qed.

(** Split on whether the character [a] is a dot, a slash, or neither. *)
Ltac char_simpl :=
  repeat (progress
    (cbn -[Ascii.eqb ascii_dec];
     rewrite ?ascii_dec_eqb, ?prefix_empty, ?Ascii.eqb_refl;
     repeat match goal with
            | H : (_ =? _)%char = false |- _ => rewrite !H
            end;
     change ("/" =? ".")%char with false;
     change ("." =? "/")%char with false)).

(** Split on whether the character [a] is a dot, a slash, or neither. *)
Ltac dot_or_slash a :=
  let Hd := fresh "Hd" in
  let Hs := fresh "Hs" in
  destruct (ascii_dec "." a) as [<-|Hd];
  [|apply Ascii.eqb_neq in Hd;
    destruct (ascii_dec "/" a) as [<-|Hs]; [|apply Ascii.eqb_neq in Hs]];
  char_simpl; try reflexivity;
  repeat match goal with
         | H : (_ =? _)%char = false |- _ => clear H
         end.

Lemma path_pattern_spec (request : string) :
  JsRegExp.truthy_match request path_pattern = path_shaped request.
Proof.
  unfold path_pattern. rewrite JsRegExpFacts.truthy_match_anchored.
  unfold path_shaped.
  destruct request as [|a r1]; [reflexivity|].
  dot_or_slash a.
  destruct r1 as [|b r2]; [reflexivity|].
  dot_or_slash b.
  destruct r2 as [|c r3]; [reflexivity|].
  dot_or_slash c.
Qed.

(** ** The externals hook *)

Section ExternalsFacts.

Variable require_resolve : string -> option string.
Variable wl : gset string.
Variable context : string.

Lemma externals_path (request : string) :
  path_shaped request = true ->
  externals require_resolve wl context request = Called JsNull None.
Proof.
  intros Hp. unfold externals. now rewrite path_pattern_spec, Hp.
Qed.

Lemma externals_mock_doc :
  externals require_resolve wl context "@stencil/core/mock-doc"
  = Called JsNull (Some "../../mock-doc").
Proof. reflexivity. Qed.


Lemma externals_other (request : string) :
  path_shaped request = false ->
  request <> "@stencil/core/mock-doc" ->
  request ∉ wl ->
  externals require_resolve wl context request = Called JsUndefined None.
Proof.
  intros Hp Hne Hin. unfold externals.
  rewrite path_pattern_spec, Hp.
  rewrite bool_decide_eq_false_2 by assumption.
  now rewrite bool_decide_eq_false_2 by assumption.
Qed.

End ExternalsFacts.



(** C3. A request that begins with [./], [../] or [/] is answered with
    [callback(null, undefined)]: it is classified Internal, and so neither
    External nor Redirect, whatever the whitelist, the context and the
    resolver are. *)
Theorem path_request_is_internal
    (require_resolve : string -> option string) (wl : gset string)
    (context request : string) :
  String.prefix "./" request = true
  \/ String.prefix "../" request = true
  \/ String.prefix "/" request = true ->
  externals require_resolve wl context request = Called JsNull None
  /\ classification request (externals require_resolve wl context request)
     = Some Internal
  /\ (forall m, classification request (externals require_resolve wl context request)
               <> Some (External m))
  /\ (forall m, classification request (externals require_resolve wl context request)
               <> Some (Redirect m)).
Proof.
  intros Hshape.
  assert (Hp : path_shaped request = true).
  { unfold path_shaped. destruct Hshape as [H | [H | H]]; rewrite H;
      rewrite ?orb_true_r; reflexivity. }
  rewrite (externals_path _ _ _ _ Hp). cbn.
  repeat split; intros; discriminate.
Qed.

Lemma path_request_is_internal_witness :
  (String.prefix "./" "../utils/helpers" = true
   \/ String.prefix "../" "../utils/helpers" = true
   \/ String.prefix "/" "../utils/helpers" = true)
  /\ externals Sample.resolve_none whitelist "/repo/src" "../utils/helpers"
     = Called JsNull None.
Proof.
  split.
  - right; left; reflexivity.
  - eapply proj1, (path_request_is_internal Sample.resolve_none whitelist
             "/repo/src" "../utils/helpers").
    right; left; reflexivity.
Defined.



(** C6. The request [@stencil/core/mock-doc] is answered with
    [callback(null, '../../mock-doc')]: a Redirect to that fixed module id,
    left external. The rule sits between the other two: the path pattern is
    tried first (it does not match this request, and a request it matches
    never reaches the redirect), and the whitelist is not consulted, so the
    answer is the same when the request is itself whitelisted and cannot be
    resolved. *)
Theorem mock_doc_is_redirected
    (require_resolve : string -> option string) (wl : gset string)
    (context : string) :
  externals require_resolve wl context "@stencil/core/mock-doc"
  = Called JsNull (Some "../../mock-doc")
  /\ classification "@stencil/core/mock-doc"
       (externals require_resolve wl context "@stencil/core/mock-doc")
     = Some (Redirect "../../mock-doc")
  /\ JsRegExp.truthy_match "@stencil/core/mock-doc" path_pattern = false
  /\ (forall request,
        JsRegExp.truthy_match request path_pattern = true ->
        externals require_resolve wl context request = Called JsNull None)
  /\ externals (fun _ => None) ({[ "@stencil/core/mock-doc" ]} ∪ wl) context
       "@stencil/core/mock-doc"
     = Called JsNull (Some "../../mock-doc").
Proof.
  repeat split.
  intros request Hm. unfold externals. now rewrite Hm.
Qed.

Lemma mock_doc_is_redirected_witness :
  JsRegExp.truthy_match "./mock-doc" path_pattern = true
  /\ externals Sample.resolve_none whitelist "/repo/src" "./mock-doc"
     = Called JsNull None
  /\ externals Sample.resolve_none whitelist "/repo/src" "@stencil/core/mock-doc"
     = Called JsNull (Some "../../mock-doc").
Proof.
  pose proof (mock_doc_is_redirected Sample.resolve_none whitelist "/repo/src")
    as (Hredirect & _ & _ & Hpath & _).
  split; [reflexivity|]. split.
  - apply Hpath. reflexivity.
  - exact Hredirect.
Defined.

(** C10. The hook's outcome is a function of the request alone, given the
    whitelist and which whitelisted modules resolve: two invocations with
    the same request agree, whatever their [_context] arguments are, and
    whatever the resolvers answer elsewhere. (The hook keeps no state, so
    earlier invocations cannot matter: [externals] takes nothing from
    them.) *)
Theorem externals_depends_on_request_only
    (resolve1 resolve2 : string -> option string) (wl : gset string)
    (context1 context2 request : string) :
  (forall m, m ∈ wl -> (is_Some (resolve1 m) <-> is_Some (resolve2 m))) ->
  externals resolve1 wl context1 request = externals resolve2 wl context2 request.
Proof.
  intros Hagree. unfold externals.
  destruct (JsRegExp.truthy_match request path_pattern); [reflexivity|].
  destruct (bool_decide (request = "@stencil/core/mock-doc")); [reflexivity|].
  destruct (bool_decide_reflect (request ∈ wl)) as [Hin|Hout]; [|reflexivity].
  specialize (Hagree request Hin).
  destruct (resolve1 request) as [f1|], (resolve2 request) as [f2|]; try reflexivity.
  - destruct Hagree as [H _]. destruct H as [? ?]; [eauto|discriminate].
  - destruct Hagree as [_ H]. destruct H as [? ?]; [eauto|discriminate].
Qed.

Lemma externals_depends_on_request_only_witness :
  (forall m, m ∈ whitelist ->
     (is_Some (Sample.resolve_all m) <-> is_Some (Some "/opt/node/lib" : option string)))
  /\ externals Sample.resolve_all whitelist "/repo/src/sys" "os"
     = externals (fun _ => Some "/opt/node/lib") whitelist "/repo/src/dev-server" "os".
Proof.
  assert (H : forall m : string, m ∈ whitelist ->
     (is_Some (Sample.resolve_all m) <-> is_Some (Some "/opt/node/lib" : option string))).
  { intros m _. split; intros _; eexists; reflexivity. }
  split; [exact H|].
  exact (externals_depends_on_request_only Sample.resolve_all
           (fun _ => Some "/opt/node/lib") whitelist
           "/repo/src/sys" "/repo/src/dev-server" "os" H).
Defined.

(** The first rule and only the first answers [callback(null, undefined)]:
    the hook does so exactly for the requests that begin with [/], [./] or
    [../]. *)
Theorem path_rule_fires_exactly_on_paths
    (require_resolve : string -> option string) (wl : gset string)
    (context request : string) :
  externals require_resolve wl context request = Called JsNull None
  <-> path_shaped request = true.
Proof.
  unfold externals. rewrite path_pattern_spec.
  destruct (path_shaped request); [tauto|].
  destruct (bool_decide (request = "@stencil/core/mock-doc")).
  - split; discriminate.
  - destruct (bool_decide (request ∈ wl)); [|split; discriminate].
    destruct (require_resolve request); split; discriminate.
Qed.

(** The last rule: a request that is no path, not the redirected id and
    not whitelisted is answered with [callback(undefined, undefined)], and
    so bundled. *)
Theorem other_request_is_bundled
    (require_resolve : string -> option string) (wl : gset string)
    (context request : string) :
  path_shaped request = false ->
  request <> "@stencil/core/mock-doc" ->
  request ∉ wl ->
  externals require_resolve wl context request = Called JsUndefined None
  /\ classification request (externals require_resolve wl context request)
     = Some Internal.
Proof.
  intros Hp Hne Hout.
  now rewrite (externals_other require_resolve wl context request Hp Hne Hout).
Qed.

Lemma other_request_is_bundled_witness :
  path_shaped "postcss" = false
  /\ "postcss" <> "@stencil/core/mock-doc"
  /\ ("postcss" ∉ whitelist)
  /\ externals Sample.resolve_all whitelist "/repo/src" "postcss"
     = Called JsUndefined None.
Proof.
  assert (Hout : "postcss" ∉ whitelist).
  { unfold whitelist. rewrite !not_elem_of_union, !not_elem_of_singleton.
    repeat split; discriminate. }
  split; [reflexivity|]. split; [discriminate|]. split; [exact Hout|].
  eapply proj1, (other_request_is_bundled Sample.resolve_all whitelist
                   "/repo/src" "postcss" eq_refl).
  - discriminate.
  - exact Hout.
Defined.

(** ** One job *)

Lemma events_since_app (w w' : World) (evs : list Event) :
  trace w' = trace w ++ evs -> events_since w w' = evs.
Proof.
  intros H. unfold events_since. rewrite H. apply drop_app_length.
Qed.

(** Case analysis on the next thing the running job looks at. *)
Ltac break_match :=
  match goal with
  | |- context [match ?x with _ => _ end] =>
      lazymatch x with
      | context [match _ with _ => _ end] => fail
      | _ => destruct x eqn:?
      end
  end.

(** Every path through [run_job]. *)
Ltac job_cases :=
  unfold run_job, bundleExternal, compile, on_compiled, on_stats, compile_ok in *;
  match goal with
  | |- context [isProd ?o] => destruct (isProd o) eqn:?
  end;
  cbn in *;
  repeat (break_match; cbn in *);
  try discriminate; try congruence.

(** The events of a path, as a list. *)
Ltac trace_norm :=
  unfold events_since; cbn; rewrite <- ?app_assoc, ?drop_app_length; cbn.

(** File lookups after the writes of a path. *)
Ltac files_norm :=
  repeat match goal with
         | |- context [<[?k:=_]> _ !! ?k] => rewrite lookup_insert_eq
         | |- context [<[?k:=_]> _ !! ?k'] =>
             rewrite (lookup_insert_ne _ k k') by congruence
         | H : context [<[?k:=_]> _ !! ?k] |- _ => rewrite lookup_insert_eq in H
         | H : context [<[?k:=_]> _ !! ?k'] |- _ =>
             rewrite (lookup_insert_ne _ k k') in H by congruence
         end.

(** What the tests the job made say about the world it ran in. *)
Ltac tests_norm :=
  repeat match goal with
         | H : bool_decide (is_Some _) = false |- _ =>
             apply bool_decide_eq_false_1 in H; rewrite <- eq_None_not_Some in H
         | H : bool_decide (is_Some _) = true |- _ =>
             apply bool_decide_eq_true_1 in H; destruct H as [? H]
         | H : negb _ = false |- _ => apply negb_false_iff in H
         | H : negb _ = true |- _ => apply negb_true_iff in H
         | H : (_ =? _)%string = true |- _ => apply String.eqb_eq in H
         | H : (_ =? _)%string = false |- _ => apply String.eqb_neq in H
         end.

(** No event of an explicit trace is of the kind in question. *)
Ltac no_such_event :=
  repeat constructor; cbn; try tauto; intros; intuition (subst; auto; discriminate).

(** Bring what is known of the backend's run to where it is used. *)
Ltac facts_norm :=
  repeat match goal with
         | H : Some _ = Some _ |- _ => inversion H; clear H; subst
         | H : cb_err ?r = _, H' : context [cb_err ?r] |- _ =>
             lazymatch H' with H => fail | _ => rewrite H in H'; cbn in H' end
         | H : cb_stats ?r = _, H' : context [cb_stats ?r] |- _ =>
             lazymatch H' with H => fail | _ => rewrite H in H'; cbn in H' end
         | H : emitted ?r = _, H' : context [emitted ?r] |- _ =>
             lazymatch H' with H => fail | _ => rewrite H in H'; cbn in H' end
         | H : hasErrors ?r = _, H' : context [hasErrors ?r] |- _ =>
             lazymatch H' with H => fail | _ => rewrite H in H'; cbn in H' end
         | H : _ && _ = true |- _ => apply andb_true_iff in H; destruct H
         end.

Ltac job_leaf :=
  trace_norm; files_norm; facts_norm; tests_norm;
  repeat match goal with
         | H : _ \/ _ |- _ => destruct H
         | H : exists _, _ |- _ => destruct H
         | H : _ /\ _ |- _ => destruct H
         | H : Exists _ _ |- _ => inversion H; clear H; subst; cbn in *
         end;
  try discriminate; try congruence; try tauto;
  repeat match goal with
         | |- _ /\ _ => split
         | H : ?x = _ |- context [?x] => rewrite H
         | |- context [(?x =? ?x)%string] => rewrite String.eqb_refl
         end;
  cbn; try discriminate; try congruence; try tauto; auto;
  try solve [no_such_event].

Section JobFacts.

Variable join : list string -> string.
Variable require_resolve : string -> option string.
Variable webpack : WebpackConfig -> gmap string string -> BackendRun.
Variable terser_minify : string -> MinifyOutput.
Variable opts : BuildOptions.
Variables outputDir cachedDir entryFileName : string.

Local Abbreviation outputFile := (join [outputDir; entryFileName]).
Local Abbreviation cachedFile := (join [cachedDir; entryFileName]).
Local Abbreviation cfg :=
  (webpack_config join require_resolve opts outputDir entryFileName whitelist).
Local Abbreviation run_this_job :=
  (run_job join require_resolve webpack terser_minify opts outputDir cachedDir
     entryFileName).

(** C1. In a production build the job never looks at the cache: it
    performs no existence check and no [copyFile] at all, the first thing
    it does is invoke webpack, and the only file it reads is its own output
    file. The world it starts from is arbitrary, so this holds as well when
    a file sits at [cachedDir/entryFileName]. *)
Theorem production_never_consults_cache (w : World) :
  isProd opts = true ->
  let evs := events_since w (run_this_job w).1 in
  Forall (fun ev => ~ is_exists_sync ev /\ ~ is_copy_file ev) evs
  /\ (exists rest, evs = Ev (Webpack cfg) :: rest)
  /\ Forall (fun ev => forall p, reads_path p ev -> p = outputFile) evs.
Proof.
  intros Hprod evs. subst evs.
  job_cases; trace_norm; (split; [|split]); eauto; no_such_event.
Qed.

(** C2. The job writes into the cache only on the success path of a
    non-production compile. A production run performs no [copyFile]; a run
    that rejects its promise (backend error, diagnostics, minify error)
    performs no [copyFile] and no [writeFile]. Where the output file is not
    the cache file itself: a production run, and any run that does not
    fulfil its promise, leaves the file at [cachedDir/entryFileName] as it
    was (absent, if it was absent); an operation that writes it occurs only
    in a non-production run that missed the cache and whose compile
    succeeded; and its contents change only when that run also fulfils its
    promise. *)
Theorem cache_written_only_after_successful_compile (w : World) :
  let run := webpack cfg (files w) in
  let w' := (run_this_job w).1 in
  let promise := (run_this_job w).2 in
  let evs := events_since w w' in
  (isProd opts = true -> Forall (fun ev => ~ is_copy_file ev) evs)
  /\ (forall reason, promise = Rejected reason ->
      Forall (fun ev => ~ is_copy_file ev /\ ~ is_write_file ev) evs)
  /\ (outputFile <> cachedFile ->
      isProd opts = true \/ promise <> Fulfilled ->
      files w' !! cachedFile = files w !! cachedFile)
  /\ (outputFile <> cachedFile ->
      Exists (writes_path cachedFile) evs ->
      isProd opts = false /\ files w !! cachedFile = None /\ compile_ok run = true)
  /\ (outputFile <> cachedFile ->
      files w' !! cachedFile <> files w !! cachedFile ->
      isProd opts = false /\ files w !! cachedFile = None
      /\ compile_ok run = true /\ promise = Fulfilled).
Proof.
  intros run w' promise evs. subst run w' promise evs.
  repeat apply conj.
  - intros Hprod. job_cases; trace_norm; no_such_event.
  - intros reason. job_cases; trace_norm; intros; try discriminate; no_such_event.
  - intros Hne. job_cases; intros Hcase; job_leaf.
  - intros Hne. job_cases; trace_norm; intros Hex; job_leaf.
  - intros Hne. job_cases; intros Hch; job_leaf.
Qed.

(** The fast path: the exact result of a non-production run that finds its
    cache entry. *)
Lemma run_job_cache_hit (w : World) (data : string) :
  isProd opts = false ->
  files w !! cachedFile = Some data ->
  run_this_job w
  = (put_file outputFile data
       (log (Ev (CopyFile cachedFile outputFile))
          (log (Ev (ExistsSync cachedFile)) w)),
     Fulfilled).
Proof.
  intros Hprod Hhit. unfold run_job, bundleExternal. rewrite Hprod. cbn.
  rewrite Hhit. cbn. now rewrite Hhit.
Qed.

(** The slow path: the exact result of a non-production run that misses
    the cache and whose compile succeeds. *)
Lemma run_job_cache_miss (w : World) (bytes : string) :
  isProd opts = false ->
  files w !! cachedFile = None ->
  compile_ok (webpack cfg (files w)) = true ->
  emitted (webpack cfg (files w)) = Some bytes ->
  run_this_job w
  = (put_file cachedFile bytes
       (log (Ev (CopyFile outputFile cachedFile))
          (put_file outputFile bytes
             (log (Ev (Webpack cfg))
                (log (Ev (ExistsSync cachedFile)) w)))),
     Fulfilled).
Proof.
  intros Hprod Hmiss Hok Hemit.
  job_cases; job_leaf.
Qed.


(** C7, as the code has it. When webpack is invoked and hands the callback
    an error whose message is not empty, the job's promise is rejected with
    that very error, and the failed invocation is the last thing the job
    does: webpack is invoked once and not again. *)
Theorem hard_failure_rejects_job (w : World) (e : JsError) :
  isProd opts = true \/ files w !! cachedFile = None ->
  cb_err (webpack cfg (files w)) = Some e ->
  message e <> "" ->
  (run_this_job w).2 = Rejected (CompileError e)
  /\ events_since w (run_this_job w).1
     = if isProd opts
       then [Ev (Webpack cfg)]
       else [Ev (ExistsSync cachedFile); Ev (Webpack cfg)].
Proof.
  intros Hinvoked Herr Hmsg. revert Hinvoked.
  job_cases; intros Hinvoked; job_leaf.
Qed.

(** C8. In a production build whose compile succeeds, emitting [code]:
    webpack was told not to minimize; the job reads the artifact back and
    hands it to terser. If terser reports an error, the promise is rejected
    with it and the job writes nothing: the output file still holds the
    unminified [code], under a rejected promise. Otherwise the job
    overwrites the output file with the minified code and fulfils its
    promise. Either way it performs no [copyFile]: nothing is written to
    the cache. *)
Theorem production_success_is_minified (w : World) (code : string) :
  isProd opts = true ->
  compile_ok (webpack cfg (files w)) = true ->
  emitted (webpack cfg (files w)) = Some code ->
  let w' := (run_this_job w).1 in
  let promise := (run_this_job w).2 in
  let evs := events_since w w' in
  optimization_minimize cfg = false
  /\ Forall (fun ev => ~ is_copy_file ev) evs
  /\ match terser_minify code with
     | MinifyFailed error =>
         promise = Rejected (MinifyError error)
         /\ evs = [Ev (Webpack cfg); Ev (ReadFile outputFile); Ev (TerserMinify code)]
         /\ files w' !! outputFile = Some code
     | Minified code' =>
         promise = Fulfilled
         /\ evs = [Ev (Webpack cfg); Ev (ReadFile outputFile); Ev (TerserMinify code);
                   Ev (WriteFile outputFile code')]
         /\ files w' !! outputFile = Some code'
     end.
Proof.
  intros Hprod Hok Hemit w' promise evs. subst w' promise evs.
  split; [reflexivity|].
  job_cases; job_leaf.
Qed.

(** A soft failure: when webpack is invoked, raises no error with a
    message and hands over stats that have errors, the job's promise is
    rejected with the diagnostics, joined by newlines; the job goes no
    further. *)
Theorem diagnostics_reject_job (w : World) (st : Stats) :
  isProd opts = true \/ files w !! cachedFile = None ->
  (forall e, cb_err (webpack cfg (files w)) = Some e -> message e = "") ->
  cb_stats (webpack cfg (files w)) = Some st ->
  hasErrors st = true ->
  (run_this_job w).2
  = Rejected (BundleDiagnosticError (String.concat newline (errors st)))
  /\ events_since w (run_this_job w).1
     = if isProd opts
       then [Ev (Webpack cfg)]
       else [Ev (ExistsSync cachedFile); Ev (Webpack cfg)].
Proof.
  intros Hinvoked Herr Hstats Herrors. revert Hinvoked.
  job_cases; intros Hinvoked; job_leaf.
  all: exfalso;
    match goal with
    | Hm : message ?e <> "", He : forall e', Some ?e = Some e' -> _ |- _ =>
        exact (Hm (He e eq_refl))
    end.
Qed.

(** Scenario A of the design document: a non-production run that misses
    the cache and whose compile succeeds, emitting [bytes], fulfils its
    promise and leaves [bytes] in the output file and in the cache. *)
Theorem cache_miss_compiles_and_fills_cache (w : World) (bytes : string) :
  isProd opts = false ->
  files w !! cachedFile = None ->
  compile_ok (webpack cfg (files w)) = true ->
  emitted (webpack cfg (files w)) = Some bytes ->
  (run_this_job w).2 = Fulfilled
  /\ events_since w (run_this_job w).1
     = [Ev (ExistsSync cachedFile); Ev (Webpack cfg);
        Ev (CopyFile outputFile cachedFile)]
  /\ files (run_this_job w).1 !! cachedFile = Some bytes
  /\ files (run_this_job w).1 !! outputFile = Some bytes.
Proof.
  intros Hprod Hmiss Hok Hemit.
  rewrite (run_job_cache_miss w bytes Hprod Hmiss Hok Hemit). cbn [fst snd].
  split; [reflexivity|]. split; [trace_norm; reflexivity|]. cbn. split.
  - apply lookup_insert_eq.
  - destruct (decide (cachedFile = outputFile)) as [<-|Hne].
    + apply lookup_insert_eq.
    + rewrite lookup_insert_ne by assumption. apply lookup_insert_eq.
Qed.

End JobFacts.

Lemma production_never_consults_cache_witness :
  isProd (Sample.opts true) = true
  /\ exists rest,
      events_since Sample.cached_world
        (run_job Sample.join Sample.resolve_all Sample.webpack_ok Sample.terser_ok
           (Sample.opts true) "sys/node" "build/sys-node-bundle-cache" "glob.js"
           Sample.cached_world).1
      = Ev (Webpack (webpack_config Sample.join Sample.resolve_all (Sample.opts true)
                       "sys/node" "glob.js" whitelist)) :: rest.
Proof.
  split; [reflexivity|].
  eapply proj1, proj2, (production_never_consults_cache Sample.join Sample.resolve_all
           Sample.webpack_ok Sample.terser_ok (Sample.opts true)
           "sys/node" "build/sys-node-bundle-cache" "glob.js" Sample.cached_world).
  reflexivity.
Defined.


(** C7 as stated fails on an error without a message: the test
    [err && err.message] sends it to the [else] branch, where [stats] is
    undefined; the callback throws, nobody settles the promise, and the job
    stays pending instead of being rejected. *)
Lemma hard_failure_without_message_is_not_rejected :
  let run :=
    run_job Sample.join Sample.resolve_all Sample.webpack_mute_crash Sample.terser_ok
      (Sample.opts true) "sys/node" "build/sys-node-bundle-cache" "glob.js"
      Sample.empty_world in
  cb_err (Sample.webpack_mute_crash
            (webpack_config Sample.join Sample.resolve_all (Sample.opts true)
               "sys/node" "glob.js" whitelist)
            (files Sample.empty_world))
  = Some {| message := "" |}
  /\ run.2 = Pending
  /\ (forall reason, run.2 <> Rejected reason).
Proof.
  cbv zeta. split; [reflexivity|]. split; [reflexivity|].
  intros reason. discriminate.
Qed.

Lemma hard_failure_rejects_job_witness :
  (isProd (Sample.opts false) = true \/ files Sample.empty_world !! "build/sys-node-bundle-cache/glob.js" = None)
  /\ message {| message := "spawn ENOMEM" |} <> ""
  /\ (run_job Sample.join Sample.resolve_all Sample.webpack_crash Sample.terser_ok
        (Sample.opts false) "sys/node" "build/sys-node-bundle-cache" "glob.js"
        Sample.empty_world).2
     = Rejected (CompileError {| message := "spawn ENOMEM" |}).
Proof.
  split; [right; reflexivity|]. split; [discriminate|].
  eapply proj1, (hard_failure_rejects_job Sample.join Sample.resolve_all
                   Sample.webpack_crash Sample.terser_ok (Sample.opts false)
                   "sys/node" "build/sys-node-bundle-cache" "glob.js"
                   Sample.empty_world {| message := "spawn ENOMEM" |}).
  - right; reflexivity.
  - reflexivity.
  - discriminate.
Defined.

Lemma production_success_is_minified_witness :
  isProd (Sample.opts true) = true
  /\ compile_ok (Sample.webpack_ok
                  (webpack_config Sample.join Sample.resolve_all (Sample.opts true)
                     "sys/node" "autoprefixer.js" whitelist)
                  (files Sample.empty_world)) = true
  /\ files (run_job Sample.join Sample.resolve_all Sample.webpack_ok Sample.terser_ok
              (Sample.opts true) "sys/node" "build/sys-node-bundle-cache"
              "autoprefixer.js" Sample.empty_world).1 !! "sys/node/autoprefixer.js"
     = Some "min(bundle of src/sys/node/bundles/autoprefixer.js)"
  /\ (run_job Sample.join Sample.resolve_all Sample.webpack_ok Sample.terser_failing
        (Sample.opts true) "sys/node" "build/sys-node-bundle-cache"
        "autoprefixer.js" Sample.empty_world).2
     = Rejected (MinifyError {| message := "Unexpected token: punc" |}).
Proof.
  split; [reflexivity|]. split; [reflexivity|]. split.
  - exact (proj2 (proj2 (proj2 (proj2
      (production_success_is_minified Sample.join Sample.resolve_all
         Sample.webpack_ok Sample.terser_ok (Sample.opts true)
         "sys/node" "build/sys-node-bundle-cache" "autoprefixer.js"
         Sample.empty_world "bundle of src/sys/node/bundles/autoprefixer.js"
         eq_refl eq_refl eq_refl))))).
  - exact (proj1 (proj2 (proj2
      (production_success_is_minified Sample.join Sample.resolve_all
         Sample.webpack_ok Sample.terser_failing (Sample.opts true)
         "sys/node" "build/sys-node-bundle-cache" "autoprefixer.js"
         Sample.empty_world "bundle of src/sys/node/bundles/autoprefixer.js"
         eq_refl eq_refl eq_refl)))).
Defined.

Lemma cache_written_only_after_successful_compile_witness :
  Sample.join ["sys/node"; "glob.js"]
  <> Sample.join ["build/sys-node-bundle-cache"; "glob.js"]
  /\ files (run_job Sample.join Sample.resolve_all Sample.webpack_ok Sample.terser_ok
              (Sample.opts true) "sys/node" "build/sys-node-bundle-cache" "glob.js"
              Sample.cached_world).1 !! "build/sys-node-bundle-cache/glob.js"
     = Some "cached glob"
  /\ files (run_job Sample.join Sample.resolve_all Sample.webpack_diagnostics
              Sample.terser_ok (Sample.opts false) "sys/node"
              "build/sys-node-bundle-cache" "glob.js"
              Sample.empty_world).1 !! "build/sys-node-bundle-cache/glob.js"
     = None.
Proof.
  assert (Hne : Sample.join ["sys/node"; "glob.js"]
                <> Sample.join ["build/sys-node-bundle-cache"; "glob.js"])
    by discriminate.
  split; [exact Hne|]. split.
  - exact (proj1 (proj2 (proj2
      (cache_written_only_after_successful_compile Sample.join Sample.resolve_all
         Sample.webpack_ok Sample.terser_ok (Sample.opts true)
         "sys/node" "build/sys-node-bundle-cache" "glob.js" Sample.cached_world)))
      Hne (or_introl eq_refl)).
  - refine (proj1 (proj2 (proj2
      (cache_written_only_after_successful_compile Sample.join Sample.resolve_all
         Sample.webpack_diagnostics Sample.terser_ok (Sample.opts false)
         "sys/node" "build/sys-node-bundle-cache" "glob.js" Sample.empty_world)))
      Hne (or_intror _)).
    discriminate.
Defined.

Lemma diagnostics_reject_job_witness :
  cb_stats (Sample.webpack_diagnostics
              (webpack_config Sample.join Sample.resolve_all (Sample.opts false)
                 "sys/node" "glob.js" whitelist)
              (files Sample.empty_world))
  = Some {| hasErrors := true;
            errors := ["Module not found: left-pad"; "Unexpected token"] |}
  /\ (run_job Sample.join Sample.resolve_all Sample.webpack_diagnostics Sample.terser_ok
        (Sample.opts false) "sys/node" "build/sys-node-bundle-cache" "glob.js"
        Sample.empty_world).2
     = Rejected (BundleDiagnosticError
                   (String.concat newline
                      ["Module not found: left-pad"; "Unexpected token"])).
Proof.
  split; [reflexivity|].
  eapply proj1, (diagnostics_reject_job Sample.join Sample.resolve_all
                   Sample.webpack_diagnostics Sample.terser_ok (Sample.opts false)
                   "sys/node" "build/sys-node-bundle-cache" "glob.js"
                   Sample.empty_world
                   {| hasErrors := true;
                      errors := ["Module not found: left-pad"; "Unexpected token"] |}).
  - right; reflexivity.
  - intros e He. discriminate He.
  - reflexivity.
  - reflexivity.
Defined.

Lemma cache_miss_compiles_and_fills_cache_witness :
  isProd (Sample.opts false) = false
  /\ files Sample.empty_world !! "build/sys-node-bundle-cache/glob.js" = None
  /\ files (run_job Sample.join Sample.resolve_all Sample.webpack_ok Sample.terser_ok
              (Sample.opts false) "sys/node" "build/sys-node-bundle-cache" "glob.js"
              Sample.empty_world).1 !! "build/sys-node-bundle-cache/glob.js"
     = Some "bundle of src/sys/node/bundles/glob.js".
Proof.
  split; [reflexivity|]. split; [reflexivity|].
  exact (proj1 (proj2 (proj2
    (cache_miss_compiles_and_fills_cache Sample.join Sample.resolve_all
       Sample.webpack_ok Sample.terser_ok (Sample.opts false)
       "sys/node" "build/sys-node-bundle-cache" "glob.js" Sample.empty_world
       "bundle of src/sys/node/bundles/glob.js" eq_refl eq_refl eq_refl eq_refl)))).
Defined.

(** ** Jobs in flight under Promise.all *)

Lemma is_resolved_spec (job : Prog Settlement) :
  is_resolved job = true <-> job = Ret Resolve.
Proof.
  destruct job as [[|reason]|e|X op k]; cbn; split; intros H;
    try reflexivity; try discriminate.
Qed.

Lemma forallb_is_resolved (js : list (Prog Settlement)) :
  forallb is_resolved js = true <-> Forall (fun job => job = Ret Resolve) js.
Proof.
  induction js as [|job js IH]; cbn.
  - split; auto.
  - rewrite andb_true_iff, Forall_cons, is_resolved_spec, IH. reflexivity.
Qed.

Lemma rejection_spec (job : Prog Settlement) (reason : BundleError) :
  rejection job = Some reason <-> job = Ret (Reject reason).
Proof.
  destruct job as [[|reason']|e|X op k]; cbn; split; intros H;
    try discriminate; congruence.
Qed.

Section BatchFacts.

Variable join : list string -> string.
Variable require_resolve : string -> option string.
Variable webpack : WebpackConfig -> gmap string string -> BackendRun.
Variable terser_minify : string -> MinifyOutput.

Local Abbreviation step' := (step join webpack terser_minify).
Local Abbreviation run_schedule' := (run_schedule join webpack terser_minify).

Lemma promise_all_reflects_jobs (w : World) (js : list (Prog Settlement)) :
  reflects_jobs (all (promise_all w js)) js.
Proof.
  unfold promise_all; cbn.
  destruct (list_find _ js) as [[i job]|] eqn:Hfind.
  - apply list_find_Some in Hfind as (Hi & [reason Hrej] & _).
    apply rejection_spec in Hrej. subst job.
    split; [|split].
    + intros r [= <-]. eauto.
    + eauto.
    + split; [discriminate|].
      intros Hall. rewrite Forall_lookup in Hall.
      specialize (Hall i _ Hi). discriminate.
  - apply list_find_None in Hfind. rewrite Forall_lookup in Hfind.
    assert (Hnone : forall i reason, js !! i <> Some (Ret (Reject reason))).
    { intros i reason Hi. apply (Hfind i _ Hi). now exists reason. }
    destruct (forallb is_resolved js) eqn:Hres.
    + split; [discriminate|]. split.
      * intros i reason Hi. now destruct (Hnone i reason).
      * split; [intros _|reflexivity]. now apply forallb_is_resolved.
    + split; [discriminate|]. split.
      * intros i reason Hi. now destruct (Hnone i reason).
      * split; [discriminate|]. intros Hall.
        apply forallb_is_resolved in Hall. congruence.
Qed.

Lemma react_reflects_jobs (i : nat) (js : list (Prog Settlement))
    (p : PromiseState BundleError) {X : Type} (op : Op X)
    (k : X -> Prog Settlement) (job' : Prog Settlement) :
  js !! i = Some (Do op k) ->
  reflects_jobs p js ->
  reflects_jobs (react job' (<[i := job']> js) p) (<[i := job']> js).
Proof.
  intros Hi (HA & HB & HC).
  assert (Hlen : i < length js) by (eapply lookup_lt_Some; eassumption).
  assert (Hnew : <[i := job']> js !! i = Some job')
    by now apply list_lookup_insert_eq.
  assert (Hold : forall j job, j <> i -> <[i := job']> js !! j = Some job ->
                               js !! j = Some job).
  { intros j job Hne. now rewrite list_lookup_insert_ne by congruence. }
  assert (Hrunning : ~ Forall (fun job => job = Ret Resolve) js).
  { intros Hall. rewrite Forall_lookup in Hall.
    specialize (Hall i _ Hi). discriminate. }
  destruct p as [| |r0]; cbn.
  - (* pending so far *)
    assert (Hnorej : forall j reason, j <> i ->
              <[i := job']> js !! j <> Some (Ret (Reject reason))).
    { intros j reason Hne Hj. apply Hold in Hj; [|assumption].
      destruct (HB j reason Hj) as [? ?]. discriminate. }
    destruct job' as [[|reason]|e|Y op' k'].
    + destruct (forallb is_resolved _) eqn:Hres.
      * split; [discriminate|]. split.
        -- intros j reason Hj. destruct (decide (j = i)) as [->|Hne].
           ++ rewrite Hnew in Hj. discriminate.
           ++ now destruct (Hnorej j reason Hne).
        -- split; [intros _|reflexivity]. now apply forallb_is_resolved.
      * split; [discriminate|]. split.
        -- intros j reason Hj. destruct (decide (j = i)) as [->|Hne].
           ++ rewrite Hnew in Hj. discriminate.
           ++ now destruct (Hnorej j reason Hne).
        -- split; [discriminate|]. intros Hall.
           apply forallb_is_resolved in Hall. congruence.
    + split; [|split].
      * intros r [= <-]. eauto.
      * eauto.
      * split; [discriminate|]. intros Hall. rewrite Forall_lookup in Hall.
        specialize (Hall i _ Hnew). discriminate.
    + split; [discriminate|]. split.
      * intros j reason Hj. destruct (decide (j = i)) as [->|Hne].
        -- rewrite Hnew in Hj. discriminate.
        -- now destruct (Hnorej j reason Hne).
      * split; [discriminate|]. intros Hall. rewrite Forall_lookup in Hall.
        specialize (Hall i _ Hnew). discriminate.
    + split; [discriminate|]. split.
      * intros j reason Hj. destruct (decide (j = i)) as [->|Hne].
        -- rewrite Hnew in Hj. discriminate.
        -- now destruct (Hnorej j reason Hne).
      * split; [discriminate|]. intros Hall. rewrite Forall_lookup in Hall.
        specialize (Hall i _ Hnew). discriminate.
  - (* fulfilled while job [i] was running: impossible *)
    destruct Hrunning. now apply HC.
  - (* rejected already *)
    destruct (HA r0 eq_refl) as [j Hj].
    assert (Hne : j <> i) by (intros ->; congruence).
    assert (Hj' : <[i := job']> js !! j = Some (Ret (Reject r0)))
      by now rewrite list_lookup_insert_ne by congruence.
    split; [|split].
    + intros r [= <-]. eauto.
    + eauto.
    + split; [discriminate|]. intros Hall. rewrite Forall_lookup in Hall.
      specialize (Hall j _ Hj'). discriminate.
Qed.

Lemma step_reflects_jobs (i : nat) (b : Batch) :
  reflects_jobs (all b) (jobs b) ->
  reflects_jobs (all (step' i b)) (jobs (step' i b)).
Proof.
  intros Hinv. unfold step.
  destruct (jobs b !! i) as [[s|e|X op k]|] eqn:Hi; try assumption.
  destruct (perform join webpack terser_minify op (world b)) as [w' r]. cbn.
  eapply react_reflects_jobs; eassumption.
Qed.

Lemma run_schedule_cons (i : nat) (schedule : list nat) (b : Batch) :
  run_schedule' (i :: schedule) b = run_schedule' schedule (step' i b).
Proof. reflexivity. Qed.

Lemma run_schedule_reflects_jobs (schedule : list nat) (b : Batch) :
  reflects_jobs (all b) (jobs b) ->
  reflects_jobs (all (run_schedule' schedule b)) (jobs (run_schedule' schedule b)).
Proof.
  revert b. induction schedule as [|i schedule IH]; intros b Hinv.
  - assumption.
  - rewrite run_schedule_cons. apply IH, step_reflects_jobs, Hinv.
Qed.

(** A settled [Promise.all] keeps its state, whatever the jobs do next. *)
Lemma react_settled (job' : Prog Settlement) (js : list (Prog Settlement))
    (p : PromiseState BundleError) :
  p <> Pending -> react job' js p = p.
Proof. destruct p; intros H; [now destruct H | reflexivity | reflexivity]. Qed.

Lemma step_settled (i : nat) (b : Batch) :
  all b <> Pending -> all (step' i b) = all b.
Proof.
  intros Hset. unfold step.
  destruct (jobs b !! i) as [[s|e|X op k]|]; try reflexivity.
  destruct (perform join webpack terser_minify op (world b)) as [w' r]. cbn.
  now apply react_settled.
Qed.

Lemma run_schedule_settled (schedule : list nat) (b : Batch) :
  all b <> Pending -> all (run_schedule' schedule b) = all b.
Proof.
  revert b. induction schedule as [|i schedule IH]; intros b Hset.
  - reflexivity.
  - rewrite run_schedule_cons.
    rewrite IH by (rewrite step_settled; assumption).
    now apply step_settled.
Qed.

(** The job whose rejection finds [Promise.all] pending rejects it, with
    its own reason. *)
Lemma step_first_rejection (i : nat) (b : Batch) (reason : BundleError) :
  reflects_jobs (all b) (jobs b) ->
  all b = Pending ->
  jobs (step' i b) !! i = Some (Ret (Reject reason)) ->
  all (step' i b) = Rejected reason.
Proof.
  intros (_ & HB & _) Hpending. unfold step.
  destruct (jobs b !! i) as [[s|e|X op k]|] eqn:Hi.
  - intros Hrej. rewrite Hi in Hrej. injection Hrej as ->.
    destruct (HB i reason Hi) as [reason' Hall]. congruence.
  - intros Hrej. rewrite Hi in Hrej. discriminate.
  - destruct (perform join webpack terser_minify op (world b)) as [w' r]. cbn.
    rewrite list_lookup_insert_eq by (eapply lookup_lt_Some; eassumption).
    intros [= ->]. now rewrite Hpending.
  - intros Hrej. rewrite Hi in Hrej. discriminate.
Qed.

(** The jobs run the same whatever the state of [Promise.all]. *)
Lemma step_ignores_promise (i : nat) (b1 b2 : Batch) :
  world b1 = world b2 -> jobs b1 = jobs b2 ->
  world (step' i b1) = world (step' i b2)
  /\ jobs (step' i b1) = jobs (step' i b2).
Proof.
  intros Hw Hj. unfold step. rewrite Hw, Hj.
  destruct (jobs b2 !! i) as [[s|e|X op k]|]; auto.
  destruct (perform join webpack terser_minify op (world b2)) as [w' r]. auto.
Qed.

Lemma run_schedule_ignores_promise (schedule : list nat) (b1 b2 : Batch) :
  world b1 = world b2 -> jobs b1 = jobs b2 ->
  world (run_schedule' schedule b1) = world (run_schedule' schedule b2)
  /\ jobs (run_schedule' schedule b1) = jobs (run_schedule' schedule b2).
Proof.
  revert b1 b2. induction schedule as [|i schedule IH]; intros b1 b2 Hw Hj.
  - auto.
  - rewrite !run_schedule_cons.
    destruct (step_ignores_promise i b1 b2 Hw Hj) as [Hw' Hj'].
    now apply IH.
Qed.

(** *** What the jobs add to the trace *)

Lemma perform_trace {X : Type} (op : Op X) (w : World) :
  trace (perform join webpack terser_minify op w).1 = trace w ++ [Ev op].
Proof.
  unfold perform. destruct op; cbn;
    repeat match goal with
           | |- context [match ?x with _ => _ end] => destruct x; cbn
           end; reflexivity.
Qed.

Lemma exec_trace {A : Type} (P : Event -> Prop) (p : Prog A) (w : World) :
  never P p ->
  exists evs,
    trace (exec join webpack terser_minify p w).1 = trace w ++ evs
    /\ Forall (fun ev => ~ P ev) evs.
Proof.
  revert w. induction p as [a|e|X op k IH]; intros w Hnever; cbn.
  - exists []. now rewrite app_nil_r.
  - exists []. now rewrite app_nil_r.
  - destruct Hnever as [Hop Hk].
    pose proof (perform_trace op w) as Htr.
    destruct (perform join webpack terser_minify op w) as [w' [x|e]]; cbn in *.
    + destruct (IH x w' (Hk x)) as (evs & Hevs & Hall).
      exists (Ev op :: evs). split.
      * rewrite Hevs, Htr, <- app_assoc. reflexivity.
      * now constructor.
    + exists [Ev op]. split; [assumption|]. now repeat constructor.
Qed.

Lemma step_trace (P : Event -> Prop) (i : nat) (b : Batch) :
  Forall (never P) (jobs b) ->
  Forall (never P) (jobs (step' i b))
  /\ exists evs,
      trace (world (step' i b)) = trace (world b) ++ evs
      /\ Forall (fun ev => ~ P ev) evs.
Proof.
  intros Hjobs. unfold step.
  destruct (jobs b !! i) as [[s|e|X op k]|] eqn:Hi;
    try (split; [assumption|]; exists []; now rewrite app_nil_r).
  pose proof (perform_trace op (world b)) as Htr.
  assert (Hnever : never P (Do op k)).
  { rewrite Forall_lookup in Hjobs. exact (Hjobs i _ Hi). }
  destruct Hnever as [Hop Hk].
  destruct (perform join webpack terser_minify op (world b)) as [w' r]. cbn in *.
  split.
  - apply Forall_insert; [assumption|]. destruct r as [x|e]; cbn; auto.
  - exists [Ev op]. split; [assumption|]. now repeat constructor.
Qed.

Lemma run_schedule_trace (P : Event -> Prop) (schedule : list nat) (b : Batch) :
  Forall (never P) (jobs b) ->
  exists evs,
    trace (world (run_schedule' schedule b)) = trace (world b) ++ evs
    /\ Forall (fun ev => ~ P ev) evs.
Proof.
  revert b. induction schedule as [|i schedule IH]; intros b Hjobs.
  - exists []. now rewrite app_nil_r.
  - rewrite run_schedule_cons.
    destruct (step_trace P i b Hjobs) as (Hjobs' & evs1 & Htr1 & Hall1).
    destruct (IH _ Hjobs') as (evs2 & Htr2 & Hall2).
    exists (evs1 ++ evs2). split.
    + rewrite Htr2, Htr1, <- app_assoc. reflexivity.
    + now apply Forall_app.
Qed.

(** *** The jobs of sysNodeExternalBundles *)

Lemma bundleExternal_never_ensures_dir (opts : BuildOptions)
    (outputDir cachedDir entryFileName : string) :
  never is_ensure_dir
    (bundleExternal join require_resolve opts outputDir cachedDir entryFileName).
Proof.
  unfold bundleExternal, compile, on_compiled, on_stats.
  destruct (isProd opts); cbn;
    repeat match goal with
           | |- _ /\ _ => split
           | |- ~ _ => intros []
           | |- forall _, _ => intro
           | |- True => exact I
           | |- context [match ?x with _ => _ end] => destruct x; cbn
           end.
Qed.

Lemma external_bundles_never_ensure_dir (opts : BuildOptions) (cachedDir : string) :
  Forall (never is_ensure_dir) (external_bundles join require_resolve opts cachedDir).
Proof.
  unfold external_bundles.
  repeat constructor; apply bundleExternal_never_ensures_dir.
Qed.

Lemma copy_assets_never_ensures_dir (opts : BuildOptions) :
  never is_ensure_dir (copy_assets join opts).
Proof.
  cbn. repeat split; auto; intros [].
Qed.

(** C9. Jobs under [Promise.all], resumed in any order ([schedule]), from
    any world:
    - if a job has rejected its promise, the promise of [Promise.all] is
      rejected, and the reason it carries is the reason of a job that
      rejected: that job's own, when it is the only one, and the own
      reason of the job whose rejection finds it pending;
    - it is fulfilled exactly when every job has resolved;
    - the jobs and the world run the same whatever the state of that
      promise is, so a rejection cancels no sibling; and what the siblings
      do afterwards ([more]) no longer changes it.
    [sysNodeExternalBundles] first ensures the cache directory, and does so
    once: no later operation, of a job or of the function, is an
    [ensureDir]; when that fails no job starts. Its own promise is rejected
    with the reason [Promise.all] was rejected with, and stays pending as
    long as that is pending. *)
Theorem batch_fails_with_the_failing_jobs_error
    (opts : BuildOptions) (js : list (Prog Settlement)) (schedule : list nat)
    (w : World) :
  let b := run_schedule' schedule (promise_all w js) in
  let cachedDir := join [transpiledDir opts; "sys-node-bundle-cache"] in
  let w1 := log (Ev (EnsureDir cachedDir)) w in
  let bundles :=
    run_schedule' schedule
      (promise_all w1 (external_bundles join require_resolve opts cachedDir)) in
  let result :=
    sysNodeExternalBundles join require_resolve webpack terser_minify opts schedule w in
  (forall i reason,
     jobs b !! i = Some (Ret (Reject reason)) ->
     exists reason', all b = Rejected reason')
  /\ (forall reason,
      all b = Rejected reason ->
      exists i, jobs b !! i = Some (Ret (Reject reason)))
  /\ (forall i reason,
      jobs b !! i = Some (Ret (Reject reason)) ->
      (forall j reason', jobs b !! j = Some (Ret (Reject reason')) -> j = i) ->
      all b = Rejected reason)
  /\ (forall i reason,
      all b = Pending ->
      jobs (step' i b) !! i = Some (Ret (Reject reason)) ->
      all (step' i b) = Rejected reason)
  /\ (all b = Fulfilled <-> Forall (fun job => job = Ret Resolve) (jobs b))
  /\ (forall p,
      let b' := run_schedule' schedule {| world := w; jobs := js; all := p |} in
      world b' = world b /\ jobs b' = jobs b)
  /\ (forall more, all b <> Pending -> all (run_schedule' more b) = all b)
  /\ (exists rest,
      events_since w result.1 = Ev (EnsureDir cachedDir) :: rest
      /\ Forall (fun ev => ~ is_ensure_dir ev) rest)
  /\ (forall data,
      files w !! cachedDir = Some data ->
      result = (w1, Rejected (inr (EEXIST cachedDir))))
  /\ (files w !! cachedDir = None ->
      (forall reason,
         all bundles = Rejected reason ->
         result = (world bundles, Rejected (inl reason)))
      /\ (all bundles = Pending -> result = (world bundles, Pending))
      /\ (forall reason, result.2 = Rejected (inl reason) ->
                         all bundles = Rejected reason)).
Proof.
  intros b cachedDir w1 bundles result.
  pose proof (run_schedule_reflects_jobs schedule _ (promise_all_reflects_jobs w js))
    as (HA & HB & HC).
  fold b in HA, HB, HC.
  repeat apply conj.
  - exact HB.
  - exact HA.
  - intros i reason Hi Honly.
    destruct (HB i reason Hi) as [reason' Hall].
    destruct (HA reason' Hall) as [j Hj].
    specialize (Honly j reason' Hj). subst j. congruence.
  - intros i reason. apply step_first_rejection. subst b.
    apply run_schedule_reflects_jobs, promise_all_reflects_jobs.
  - apply HC.
  - apply HC.
  - intros p b'. subst b' b. now apply run_schedule_ignores_promise.
  - intros more Hset. now apply run_schedule_settled.
  - subst result. unfold sysNodeExternalBundles, perform.
    cbn -[exec copy_assets run_schedule promise_all external_bundles].
    fold cachedDir. destruct (files w !! cachedDir) as [data|] eqn:Hdir.
    + exists []. split; [|constructor]. now apply events_since_app.
    + fold w1. fold bundles.
      destruct (run_schedule_trace is_ensure_dir schedule
                  (promise_all w1 (external_bundles join require_resolve opts cachedDir))
                  (external_bundles_never_ensure_dir opts cachedDir))
        as (evs & Htr & Hall).
      fold bundles in Htr. cbn in Htr.
      destruct (all bundles) as [| |reason].
      * exists evs. split; [|assumption]. apply events_since_app.
        cbn. rewrite Htr, <- app_assoc. reflexivity.
      * destruct (exec_trace is_ensure_dir (copy_assets join opts) (world bundles)
                    (copy_assets_never_ensures_dir opts)) as (evs' & Htr' & Hall').
        destruct (exec join webpack terser_minify (copy_assets join opts) (world bundles))
          as [w2 [[]|e]]; cbn in *.
        -- exists (evs ++ evs'). split; [|now apply Forall_app].
           apply events_since_app. cbn. rewrite Htr', Htr, <- !app_assoc. reflexivity.
        -- exists (evs ++ evs'). split; [|now apply Forall_app].
           apply events_since_app. cbn. rewrite Htr', Htr, <- !app_assoc. reflexivity.
      * exists evs. split; [|assumption]. apply events_since_app.
        cbn. rewrite Htr, <- app_assoc. reflexivity.
  - intros data Hdir. subst result. unfold sysNodeExternalBundles, perform.
    cbn -[exec copy_assets run_schedule promise_all external_bundles].
    fold cachedDir. now rewrite Hdir.
  - intros Hnone. subst result. unfold sysNodeExternalBundles, perform.
    cbn -[exec copy_assets run_schedule promise_all external_bundles].
    fold cachedDir. rewrite Hnone. fold w1. fold bundles.
    repeat apply conj.
    + intros reason Hrej. now rewrite Hrej.
    + intros Hpend. now rewrite Hpend.
    + intros reason. destruct (all bundles) as [| |reason'].
      * discriminate.
      * destruct (exec join webpack terser_minify (copy_assets join opts) (world bundles))
          as [w2 [[]|e]]; cbn; intros Hr; discriminate Hr.
      * cbn. congruence.
Qed.

(** *** A job that runs alone *)

(** Resumed alone and often enough, a job ends as [exec] says. *)
Lemma alone_runs_as_exec (p : Prog Settlement) (w : World)
    (a : PromiseState BundleError) :
  exists n, forall m, n <= m ->
    let b := run_schedule' (repeat 0 m) {| world := w; jobs := [p]; all := a |} in
    world b = (exec join webpack terser_minify p w).1
    /\ jobs b = [match (exec join webpack terser_minify p w).2 with
                 | inl s => Ret s
                 | inr e => Raise e
                 end].
Proof.
  revert w a. induction p as [s|e|X op k IH]; intros w a.
  - exists 0. intros m _. induction m as [|m IHm]; cbn in *; auto.
  - exists 0. intros m _. induction m as [|m IHm]; cbn in *; auto.
  - destruct (perform join webpack terser_minify op w) as [w' [x|e]] eqn:Hop.
    + destruct (IH x w' (react (k x) [k x] a)) as [n Hn].
      exists (S n). intros [|m] Hm; [lia|].
      cbn [repeat]. rewrite run_schedule_cons.
      unfold step at 1. cbn. rewrite Hop. cbn.
      apply Hn. lia.
    + exists 1. intros [|m] Hm; [lia|].
      cbn [repeat]. rewrite run_schedule_cons.
      unfold step at 1. cbn. rewrite Hop. cbn.
      clear Hm. induction m as [|m IHm]; cbn in *; auto.
Qed.

End BatchFacts.

Lemma batch_fails_with_the_failing_jobs_error_witness :
  let b :=
    run_schedule Sample.join (Sample.webpack_failing_on "glob.js") Sample.terser_ok
      [1; 1; 0; 2; 0; 2; 0; 2]
      (promise_all Sample.empty_world Sample.three_jobs) in
  let diagnostics :=
    BundleDiagnosticError
      (String.concat newline ["Module not found: left-pad"; "Unexpected token"]) in
  jobs b !! 1 = Some (Ret (Reject diagnostics))
  /\ jobs b !! 0 = Some (Ret Resolve)
  /\ jobs b !! 2 = Some (Ret Resolve)
  /\ all b = Rejected diagnostics.
Proof.
  cbv zeta.
  split; [vm_compute; reflexivity|].
  split; [vm_compute; reflexivity|].
  split; [vm_compute; reflexivity|].
  refine (proj1 (proj2 (proj2
    (batch_fails_with_the_failing_jobs_error Sample.join Sample.resolve_all
       (Sample.webpack_failing_on "glob.js") Sample.terser_ok (Sample.opts false)
       Sample.three_jobs [1; 1; 0; 2; 0; 2; 0; 2] Sample.empty_world))) 1 _ _ _).
  - vm_compute. reflexivity.
  - intros [|[|[|j]]] reason' H; vm_compute in H; try discriminate H; reflexivity.
Defined.

(** Scenario E of the design document: of three jobs the second is refused
    by the backend. Whatever is resumed later, [Promise.all] stays rejected
    with the diagnostics of that job, while its siblings go on and leave
    their output files. *)
Example batch_of_three_second_fails :
  let start :=
    promise_all Sample.empty_world Sample.three_jobs in
  let failed :=
    run_schedule Sample.join (Sample.webpack_failing_on "glob.js") Sample.terser_ok
      [1; 1] start in
  let finished :=
    run_schedule Sample.join (Sample.webpack_failing_on "glob.js") Sample.terser_ok
      [0; 2; 0; 2; 0; 2] failed in
  all failed
  = Rejected (BundleDiagnosticError
                (String.concat newline ["Module not found: left-pad"; "Unexpected token"]))
  /\ files (world failed) !! "sys/node/autoprefixer.js" = None
  /\ all finished = all failed
  /\ jobs finished !! 0 = Some (Ret Resolve)
  /\ jobs finished !! 2 = Some (Ret Resolve)
  /\ files (world finished) !! "sys/node/autoprefixer.js"
     = Some "bundle of src/sys/node/bundles/autoprefixer.js"
  /\ files (world finished) !! "dev-server/ws.js"
     = Some "bundle of src/sys/node/bundles/ws.js".
Proof.
  cbv zeta. repeat split; vm_compute; reflexivity.
Qed.

(** A whole non-production build from a world without cache: the cache
    directory is ensured first, the seven jobs are resumed in turn, every
    bundle ends in its output directory and in the cache, and the two
    assets are copied last. Cut short after the first round, the same
    build is still pending and has copied nothing. *)
Example whole_build_fulfils :
  let build schedule :=
    sysNodeExternalBundles Sample.join Sample.resolve_all Sample.webpack_ok
      Sample.terser_ok (Sample.opts false) schedule Sample.assets_world in
  (build Sample.round_robin).2 = Fulfilled
  /\ head (trace (build Sample.round_robin).1)
     = Some (Ev (EnsureDir "build/sys-node-bundle-cache"))
  /\ length (trace (build Sample.round_robin).1) = 24
  /\ files (build Sample.round_robin).1 !! "dev-server/ws.js"
     = Some "bundle of src/sys/node/bundles/ws.js"
  /\ files (build Sample.round_robin).1 !! "build/sys-node-bundle-cache/ws.js"
     = Some "bundle of src/sys/node/bundles/ws.js"
  /\ files (build Sample.round_robin).1 !! "dev-server/xdg-open" = Some "xdg-open"
  /\ (build (seq 0 7)).2 = Pending
  /\ files (build (seq 0 7)).1 !! "dev-server/xdg-open" = None.
Proof.
  cbv zeta. repeat split; vm_compute; reflexivity.
Qed.

(** * Further properties *)

(** ** The hook: what it throws and what it leaves external *)

(** The hook throws in one case only: the request is whitelisted (and so
    reached the third rule) and [require.resolve] does not find it; the
    exception is then that of [require.resolve]. *)
Theorem hook_throws_exactly_when_unresolvable
    (require_resolve : string -> option string) (wl : gset string)
    (context request : string) (e : JsException) :
  externals require_resolve wl context request = Thrown e
  <-> path_shaped request = false
      /\ request <> "@stencil/core/mock-doc"
      /\ request ∈ wl
      /\ require_resolve request = None
      /\ e = ModuleNotFound request.
Proof.
  unfold externals. rewrite path_pattern_spec.
  destruct (path_shaped request).
  { split; [discriminate|]. intros (H & _). discriminate. }
  destruct (bool_decide_reflect (request = "@stencil/core/mock-doc")) as [Heq|Hne].
  { split; [discriminate|]. intros (_ & H & _). contradiction. }
  destruct (bool_decide_reflect (request ∈ wl)) as [Hin|Hout].
  - destruct (require_resolve request) as [file|].
    + split; [discriminate|]. intros (_ & _ & _ & H & _). discriminate.
    + split.
      * intros [= <-]. auto.
      * intros (_ & _ & _ & _ & ->). reflexivity.
  - split; [discriminate|]. intros (_ & _ & H & _). contradiction.
Qed.

(** Whatever module id the hook leaves external is either the fixed
    replacement of [@stencil/core/mock-doc] or the request itself, and then
    the request is whitelisted and resolves: nothing else is ever left out
    of a bundle. *)
Theorem hook_externalizes_only_whitelist_and_redirect
    (require_resolve : string -> option string) (wl : gset string)
    (context request : string) (err : JsNullish) (m : string) :
  externals require_resolve wl context request = Called err (Some m) ->
  err = JsNull
  /\ ((request = "@stencil/core/mock-doc" /\ m = "../../mock-doc")
      \/ (m = request /\ request ∈ wl /\ is_Some (require_resolve request)
          /\ path_shaped request = false)).
Proof.
  unfold externals. rewrite path_pattern_spec.
  destruct (path_shaped request); [discriminate|].
  destruct (bool_decide_reflect (request = "@stencil/core/mock-doc")) as [Heq|Hne].
  { intros [= <- <-]. auto. }
  destruct (bool_decide_reflect (request ∈ wl)) as [Hin|Hout]; [|discriminate].
  destruct (require_resolve request) as [file|] eqn:Hres; [|discriminate].
  intros [= <- <-]. split; [reflexivity|]. right. eauto.
Qed.

Lemma hook_externalizes_only_whitelist_and_redirect_witness :
  externals Sample.resolve_all whitelist "/repo/src" "os" = Called JsNull (Some "os")
  /\ ("os" ∈ whitelist).
Proof.
  assert (H : externals Sample.resolve_all whitelist "/repo/src" "os"
              = Called JsNull (Some "os")) by reflexivity.
  split; [exact H|].
  destruct (hook_externalizes_only_whitelist_and_redirect Sample.resolve_all
              whitelist "/repo/src" "os" JsNull "os" H) as [_ [[Hmock _]|(_ & Hin & _)]].
  - discriminate Hmock.
  - exact Hin.
Defined.

(** ** One job: when it hangs, what it ships, what it touches *)


Section JobEdges.

Variable join : list string -> string.
Variable require_resolve : string -> option string.
Variable webpack : WebpackConfig -> gmap string string -> BackendRun.
Variable terser_minify : string -> MinifyOutput.
Variable opts : BuildOptions.
Variables outputDir cachedDir entryFileName : string.

Local Abbreviation outputFile := (join [outputDir; entryFileName]).
Local Abbreviation cachedFile := (join [cachedDir; entryFileName]).
Local Abbreviation cfg :=
  (webpack_config join require_resolve opts outputDir entryFileName whitelist).
Local Abbreviation run_this_job :=
  (run_job join require_resolve webpack terser_minify opts outputDir cachedDir
     entryFileName).


(** Only the webpack operation consults the backend. *)
Lemma exec_without_webpack {A : Type}
    (webpack' : WebpackConfig -> gmap string string -> BackendRun)
    (p : Prog A) (w0 : World) :
  never is_webpack p ->
  exec join webpack terser_minify p w0 = exec join webpack' terser_minify p w0.
Proof.
  revert w0. induction p as [a|e|X op k IH]; intros w0 Hnever; cbn; try reflexivity.
  destruct Hnever as [Hop Hk].
  assert (Hsame : perform join webpack terser_minify op w0
                  = perform join webpack' terser_minify op w0).
  { destruct op; try reflexivity. now destruct Hop. }
  rewrite Hsame.
  destruct (perform join webpack' terser_minify op w0) as [w1 [x|e]]; auto.
Qed.

Lemma on_stats_never_invokes_webpack (outFile cacheFile : string) (st : option Stats) :
  never is_webpack (on_stats opts outFile cacheFile st).
Proof.
  unfold on_stats. destruct st as [st|]; cbn; [|exact I].
  destruct (hasErrors st); cbn; [exact I|].
  destruct (isProd opts); cbn.
  - split; [tauto|]. intros code. split; [tauto|].
    intros [error|code']; cbn; auto.
  - split; [tauto|]. intros []. exact I.
Qed.

Lemma without_mute_errors_run (c : WebpackConfig) (fs : gmap string string) :
  emitted (without_mute_errors webpack c fs) = emitted (webpack c fs)
  /\ cb_stats (without_mute_errors webpack c fs) = cb_stats (webpack c fs)
  /\ cb_err (without_mute_errors webpack c fs)
     = match cb_err (webpack c fs) with
       | Some e => if String.eqb (message e) "" then None else Some e
       | None => None
       end.
Proof. repeat split. Qed.

(** An error without a message is no error to the job: it runs exactly as
    it would had webpack raised nothing, with the same operations, files
    and promise. *)
Theorem mute_error_is_ignored (w : World) :
  run_this_job w
  = run_job join require_resolve (without_mute_errors webpack) terser_minify
      opts outputDir cachedDir entryFileName w.
Proof.
  assert (Hrest : forall (err' : option JsError) st w0,
            (forall e, err' = Some e -> message e <> "") ->
            exec join webpack terser_minify
              (on_compiled opts outputFile cachedFile err' st) w0
            = exec join (without_mute_errors webpack) terser_minify
                (on_compiled opts outputFile cachedFile err' st) w0).
  { intros err' st w0 Hloud. unfold on_compiled.
    destruct err' as [e|].
    - destruct (String.eqb_spec (message e) "") as [Hmute|_]; cbn; [|reflexivity].
      now destruct (Hloud e eq_refl).
    - apply exec_without_webpack, on_stats_never_invokes_webpack. }
  assert (Hmute : forall e st w0,
            message e = "" ->
            exec join webpack terser_minify
              (on_compiled opts outputFile cachedFile (Some e) st) w0
            = exec join (without_mute_errors webpack) terser_minify
                (on_compiled opts outputFile cachedFile None st) w0).
  { intros e st w0 He. unfold on_compiled. rewrite He. cbn.
    apply exec_without_webpack, on_stats_never_invokes_webpack. }
  assert (Hcompile : forall w0,
            exec join webpack terser_minify
              (compile join require_resolve opts outputDir entryFileName
                 outputFile cachedFile) w0
            = exec join (without_mute_errors webpack) terser_minify
                (compile join require_resolve opts outputDir entryFileName
                   outputFile cachedFile) w0).
  { intros w0. unfold compile. cbn -[on_compiled without_mute_errors].
    destruct (without_mute_errors_run cfg (files w0)) as (-> & -> & ->).
    destruct (cb_err (webpack cfg (files w0))) as [e|].
    - destruct (String.eqb_spec (message e) "") as [He|He].
      + now rewrite Hmute.
      + rewrite Hrest; [reflexivity|]. now intros e' [= <-].
    - rewrite Hrest; [reflexivity|]. discriminate. }
  unfold run_job, bundleExternal.
  destruct (isProd opts); cbn -[compile].
  - now rewrite Hcompile.
  - destruct (bool_decide (is_Some (files w !! cachedFile))); cbn -[compile];
      [reflexivity|].
    now rewrite Hcompile.
Qed.

(** A production run that fulfils its promise has shipped minified code:
    the output file holds what terser made of the artifact that webpack
    left there. *)
Theorem fulfilled_production_run_ships_minified (w : World) :
  isProd opts = true ->
  (run_this_job w).2 = Fulfilled ->
  exists code code',
    files (perform join webpack terser_minify (Webpack cfg) w).1 !! outputFile
    = Some code
    /\ terser_minify code = Minified code'
    /\ files (run_this_job w).1 !! outputFile = Some code'.
Proof.
  intros Hprod. job_cases; intros Hfulfilled; try discriminate;
    eexists _, _; job_leaf; eassumption.
Qed.

(** A job does a bounded amount of work: at most four operations, of which
    at most one is a webpack invocation (nothing is retried); a
    non-production run performs at most three and never reads the artifact
    back, calls terser or overwrites a file with [writeFile]. *)
Theorem job_work_is_bounded (w : World) :
  let evs := events_since w (run_this_job w).1 in
  length evs <= 4
  /\ length (List.filter is_webpackb evs) <= 1
  /\ (isProd opts = false ->
      length evs <= 3
      /\ Forall (fun ev => ~ is_terser ev /\ ~ is_read_file ev /\ ~ is_write_file ev)
           evs).
Proof.
  intros evs. subst evs.
  job_cases; trace_norm; (split; [lia|split; [lia|]]); intros Hdev;
    try discriminate; (split; [lia|no_such_event]).
Qed.

(** In non-production a rebuild is a no-op on the files: once a run has
    fulfilled its promise, the next run of the same job finds the cache
    entry, invokes nothing, and leaves every file as it was. *)
Theorem dev_rerun_changes_nothing (w : World) :
  isProd opts = false ->
  (run_this_job w).2 = Fulfilled ->
  let w1 := (run_this_job w).1 in
  (run_this_job w1).2 = Fulfilled
  /\ files (run_this_job w1).1 = files w1
  /\ events_since w1 (run_this_job w1).1
     = [Ev (ExistsSync cachedFile); Ev (CopyFile cachedFile outputFile)].
Proof.
  intros Hprod Hfulfilled w1.
  assert (Hboth : exists data, files w1 !! cachedFile = Some data
                               /\ files w1 !! outputFile = Some data).
  { subst w1. revert Hfulfilled.
    job_cases; intros Hfulfilled; try discriminate; eexists; job_leaf.
    all: destruct (decide (outputFile = cachedFile)) as [Heq|Hne];
      [ rewrite ?Heq in *; rewrite ?lookup_insert_eq; congruence
      | repeat first [ rewrite lookup_insert_eq
                     | rewrite lookup_insert_ne by congruence ];
        congruence ]. }
  destruct Hboth as (data & Hcache & Hout).
  rewrite (run_job_cache_hit join require_resolve webpack terser_minify opts
             outputDir cachedDir entryFileName w1 data Hprod Hcache).
  cbn [fst snd]. split; [reflexivity|]. split.
  - cbn. now apply insert_id.
  - clearbody w1. trace_norm. reflexivity.
Qed.

End JobEdges.

(** ** Footprints: what is written, and that nothing is removed *)

Section FootprintFacts.

Variable join : list string -> string.
Variable require_resolve : string -> option string.
Variable webpack : WebpackConfig -> gmap string string -> BackendRun.
Variable terser_minify : string -> MinifyOutput.

Local Abbreviation perform' := (perform join webpack terser_minify).
Local Abbreviation exec' := (exec join webpack terser_minify).
Local Abbreviation step' := (step join webpack terser_minify).
Local Abbreviation run_schedule' := (run_schedule join webpack terser_minify).
Local Abbreviation writes_within' := (writes_within join).

Lemma perform_frame {X : Type} (op : Op X) (w : World) (p : string) :
  p ∉ op_writes join op ->
  files (perform' op w).1 !! p = files w !! p.
Proof.
  intros Hout. unfold perform.
  destruct op; cbn in *;
    repeat match goal with
           | |- context [match ?x with _ => _ end] => destruct x; cbn
           end;
    try reflexivity;
    apply lookup_insert_ne; intros <-; apply Hout; left.
Qed.

Lemma perform_grows {X : Type} (op : Op X) (w : World) :
  dom (files w) ⊆ dom (files (perform' op w).1).
Proof.
  unfold perform.
  destruct op; cbn;
    repeat match goal with
           | |- context [match ?x with _ => _ end] => destruct x; cbn
           end;
    try reflexivity; rewrite dom_insert; apply union_subseteq_r.
Qed.

Lemma exec_frame {A : Type} (S : string -> Prop) (prog : Prog A) (w : World)
    (p : string) :
  writes_within' S prog -> ~ S p ->
  files (exec' prog w).1 !! p = files w !! p.
Proof.
  intros Hwithin Hout. revert w Hwithin.
  induction prog as [a|e|X op k IH]; intros w Hwithin; cbn; try reflexivity.
  destruct Hwithin as [Hop Hk].
  assert (Hp : p ∉ op_writes join op).
  { intros Hin. rewrite Forall_forall in Hop. exact (Hout (Hop p Hin)). }
  pose proof (perform_frame op w p Hp) as Hframe.
  destruct (perform' op w) as [w' [x|e]]; cbn in *.
  - rewrite IH by apply Hk. exact Hframe.
  - exact Hframe.
Qed.

Lemma exec_grows {A : Type} (prog : Prog A) (w : World) :
  dom (files w) ⊆ dom (files (exec' prog w).1).
Proof.
  revert w. induction prog as [a|e|X op k IH]; intros w; cbn; try reflexivity.
  pose proof (perform_grows op w) as Hgrow.
  destruct (perform' op w) as [w' [x|e]]; cbn in *.
  - etransitivity; [exact Hgrow|apply IH].
  - exact Hgrow.
Qed.

Lemma step_frame (S : string -> Prop) (i : nat) (b : Batch) (p : string) :
  Forall (writes_within' S) (jobs b) -> ~ S p ->
  Forall (writes_within' S) (jobs (step' i b))
  /\ files (world (step' i b)) !! p = files (world b) !! p.
Proof.
  intros Hjobs Hout. unfold step.
  destruct (jobs b !! i) as [[s|e|X op k]|] eqn:Hi; try (split; [assumption|reflexivity]).
  assert (Hjob : writes_within' S (Do op k)).
  { rewrite Forall_lookup in Hjobs. exact (Hjobs i _ Hi). }
  destruct Hjob as [Hop Hk].
  assert (Hp : p ∉ op_writes join op).
  { intros Hin. rewrite Forall_forall in Hop. exact (Hout (Hop p Hin)). }
  pose proof (perform_frame op (world b) p Hp) as Hframe.
  destruct (perform' op (world b)) as [w' r]. cbn in *. split.
  - apply Forall_insert; [assumption|]. destruct r as [x|e]; cbn; auto.
  - exact Hframe.
Qed.

Lemma run_schedule_frame (S : string -> Prop) (schedule : list nat) (b : Batch)
    (p : string) :
  Forall (writes_within' S) (jobs b) -> ~ S p ->
  files (world (run_schedule' schedule b)) !! p = files (world b) !! p.
Proof.
  intros Hjobs Hout. revert b Hjobs.
  induction schedule as [|i schedule IH]; intros b Hjobs; [reflexivity|].
  change (run_schedule' (i :: schedule) b) with (run_schedule' schedule (step' i b)).
  destruct (step_frame S i b p Hjobs Hout) as [Hjobs' Hframe].
  now rewrite IH.
Qed.

Lemma step_grows (i : nat) (b : Batch) :
  dom (files (world b)) ⊆ dom (files (world (step' i b))).
Proof.
  unfold step.
  destruct (jobs b !! i) as [[s|e|X op k]|]; try reflexivity.
  pose proof (perform_grows op (world b)) as Hgrow.
  now destruct (perform' op (world b)) as [w' r].
Qed.

Lemma run_schedule_grows (schedule : list nat) (b : Batch) :
  dom (files (world b)) ⊆ dom (files (world (run_schedule' schedule b))).
Proof.
  revert b. induction schedule as [|i schedule IH]; intros b; [reflexivity|].
  change (run_schedule' (i :: schedule) b) with (run_schedule' schedule (step' i b)).
  etransitivity; [apply step_grows|apply IH].
Qed.

Lemma bundleExternal_writes_within (opts : BuildOptions)
    (outputDir cachedDir entryFileName : string) (S : string -> Prop) :
  S (join [outputDir; entryFileName]) ->
  (isProd opts = false -> S (join [cachedDir; entryFileName])) ->
  writes_within' S
    (bundleExternal join require_resolve opts outputDir cachedDir entryFileName).
Proof.
  intros Hout Hcache.
  unfold bundleExternal, compile, on_compiled, on_stats.
  destruct (isProd opts); cbn;
    repeat match goal with
           | |- _ /\ _ => split
           | |- Forall _ [] => constructor
           | |- Forall _ (_ :: _) => constructor
           | |- forall _, _ => intro
           | |- True => exact I
           | |- S _ => first [exact Hout | exact (Hcache eq_refl)]
           | |- context [match ?x with _ => _ end] => destruct x; cbn
           end.
Qed.

Lemma run_job_world (opts : BuildOptions) (outputDir cachedDir entryFileName : string)
    (w : World) :
  (run_job join require_resolve webpack terser_minify opts outputDir cachedDir
     entryFileName w).1
  = (exec' (bundleExternal join require_resolve opts outputDir cachedDir
              entryFileName) w).1.
Proof.
  unfold run_job. now destruct (exec' _ w).
Qed.

(** A job changes no file but its output file and, in non-production, its
    cache entry; and it removes none: every file that was there still is
    when the job has ended. *)
Theorem job_touches_only_its_output_and_cache (opts : BuildOptions)
    (outputDir cachedDir entryFileName : string) (w : World) :
  let w' :=
    (run_job join require_resolve webpack terser_minify opts outputDir cachedDir
       entryFileName w).1 in
  (forall p,
     p <> join [outputDir; entryFileName] ->
     p <> join [cachedDir; entryFileName] ->
     files w' !! p = files w !! p)
  /\ (isProd opts = true ->
      forall p, p <> join [outputDir; entryFileName] ->
                files w' !! p = files w !! p)
  /\ (forall p, is_Some (files w !! p) -> is_Some (files w' !! p)).
Proof.
  intros w'. subst w'. rewrite run_job_world. repeat apply conj.
  - intros p Hout Hcache.
    apply (exec_frame (fun q => q = join [outputDir; entryFileName]
                                \/ q = join [cachedDir; entryFileName])).
    + apply bundleExternal_writes_within; auto.
    + tauto.
  - intros Hprod p Hout.
    apply (exec_frame (fun q => q = join [outputDir; entryFileName])).
    + apply bundleExternal_writes_within; [reflexivity|]. congruence.
    + assumption.
  - intros p Hp. apply elem_of_dom. apply elem_of_dom in Hp.
    revert Hp. apply exec_grows.
Qed.

(** *** The footprint of the whole build *)

Lemma external_bundles_by_name (opts : BuildOptions) :
  external_bundles join require_resolve opts
    (join [transpiledDir opts; "sys-node-bundle-cache"])
  = map (fun '(sys, name) =>
           bundleExternal join require_resolve opts
             (if sys : bool then sysNodeDir (output opts)
              else devServerDir (output opts))
             (join [transpiledDir opts; "sys-node-bundle-cache"]) name)
        bundle_names.
Proof. reflexivity. Qed.

Lemma external_bundles_write_within (opts : BuildOptions) (S : string -> Prop) :
  Forall S (bundle_outputs join opts) ->
  (isProd opts = false -> Forall S (bundle_caches join opts)) ->
  Forall (writes_within' S)
    (external_bundles join require_resolve opts
       (join [transpiledDir opts; "sys-node-bundle-cache"])).
Proof.
  intros Houts Hcaches. rewrite external_bundles_by_name.
  unfold bundle_outputs, bundle_caches in *.
  rewrite Forall_map in Houts.
  assert (Hcaches' : isProd opts = false ->
            Forall (fun x => S (let '(_, name) := x in
                     join [join [transpiledDir opts; "sys-node-bundle-cache"]; name]))
                   bundle_names).
  { intros Hdev. specialize (Hcaches Hdev). now rewrite Forall_map in Hcaches. }
  apply Forall_map. rewrite Forall_forall in *.
  intros [sys name] Hin. cbn.
  apply bundleExternal_writes_within.
  - exact (Houts (sys, name) Hin).
  - intros Hdev. exact (Hcaches' Hdev (sys, name) Hin).
Qed.

Lemma copy_assets_write_within (opts : BuildOptions) (S : string -> Prop) :
  Forall S (asset_copies join opts) ->
  writes_within' S (copy_assets join opts).
Proof.
  intros Hassets. unfold asset_copies in Hassets.
  apply Forall_cons in Hassets as [H1 Hassets].
  apply Forall_cons in Hassets as [H2 _].
  cbn. repeat split; auto.
Qed.

Lemma sysNodeExternalBundles_frame (opts : BuildOptions) (schedule : list nat)
    (w : World) (S : string -> Prop) (p : string) :
  Forall S (bundle_outputs join opts) ->
  (isProd opts = false -> Forall S (bundle_caches join opts)) ->
  Forall S (asset_copies join opts) ->
  ~ S p ->
  files (sysNodeExternalBundles join require_resolve webpack terser_minify
           opts schedule w).1 !! p
  = files w !! p.
Proof.
  intros Houts Hcaches Hassets Hp.
  unfold sysNodeExternalBundles, perform.
  cbn -[exec copy_assets run_schedule promise_all external_bundles].
  destruct (files w !! _) as [data|]; [reflexivity|].
  set (w1 := log _ w).
  set (b := run_schedule' schedule _).
  assert (Hb : files (world b) !! p = files w !! p).
  { subst b. rewrite (run_schedule_frame S); [reflexivity| |assumption].
    now apply external_bundles_write_within. }
  destruct (all b); try exact Hb.
  pose proof (exec_frame S (copy_assets join opts) (world b) p
                (copy_assets_write_within opts S Hassets) Hp) as Hcopy.
  destruct (exec' (copy_assets join opts) (world b)) as [w2 [[]|e]]; cbn in *;
    congruence.
Qed.

Lemma sysNodeExternalBundles_grows (opts : BuildOptions) (schedule : list nat)
    (w : World) :
  dom (files w)
  ⊆ dom (files (sysNodeExternalBundles join require_resolve webpack terser_minify
                  opts schedule w).1).
Proof.
  unfold sysNodeExternalBundles, perform.
  cbn -[exec copy_assets run_schedule promise_all external_bundles].
  destruct (files w !! _) as [data|]; [reflexivity|].
  set (w1 := log _ w).
  set (b := run_schedule' schedule _).
  assert (Hb : dom (files w) ⊆ dom (files (world b))).
  { subst b. apply (run_schedule_grows schedule (promise_all w1 _)). }
  destruct (all b); try exact Hb.
  pose proof (exec_grows (copy_assets join opts) (world b)) as Hcopy.
  destruct (exec' (copy_assets join opts) (world b)) as [w2 [[]|e]]; cbn in *;
    etransitivity; eassumption.
Qed.

(** Whatever the schedule, the build changes no file other than the seven
    bundles, their seven cache entries and the two copied assets (in
    production: the bundles and the assets only), and it removes no file. *)
Theorem build_touches_only_bundles_caches_and_assets (opts : BuildOptions)
    (schedule : list nat) (w : World) :
  let w' :=
    (sysNodeExternalBundles join require_resolve webpack terser_minify
       opts schedule w).1 in
  (forall p,
     p ∉ bundle_outputs join opts ++ bundle_caches join opts ++ asset_copies join opts ->
     files w' !! p = files w !! p)
  /\ (isProd opts = true ->
      forall p,
        p ∉ bundle_outputs join opts ++ asset_copies join opts ->
        files w' !! p = files w !! p)
  /\ (forall p, is_Some (files w !! p) -> is_Some (files w' !! p)).
Proof.
  intros w'. subst w'. repeat apply conj.
  - intros p Hp.
    apply (sysNodeExternalBundles_frame opts schedule w
             (fun q => q ∈ bundle_outputs join opts ++ bundle_caches join opts
                           ++ asset_copies join opts)); auto;
      try intros _; apply Forall_forall; intros q Hq; rewrite !elem_of_app; tauto.
  - intros Hprod p Hp.
    apply (sysNodeExternalBundles_frame opts schedule w
             (fun q => q ∈ bundle_outputs join opts ++ asset_copies join opts)); auto;
      try (intros Hdev; congruence); apply Forall_forall; intros q Hq; rewrite !elem_of_app; tauto.
  - intros p Hp. apply elem_of_dom. apply elem_of_dom in Hp.
    revert Hp. apply sysNodeExternalBundles_grows.
Qed.

End FootprintFacts.

(** ** The whole build: what success means, what surfaces, that it settles *)

Section BuildFacts.

Variable join : list string -> string.
Variable require_resolve : string -> option string.
Variable webpack : WebpackConfig -> gmap string string -> BackendRun.
Variable terser_minify : string -> MinifyOutput.

Local Abbreviation perform' := (perform join webpack terser_minify).
Local Abbreviation exec' := (exec join webpack terser_minify).
Local Abbreviation step' := (step join webpack terser_minify).
Local Abbreviation run_schedule' := (run_schedule join webpack terser_minify).
Local Abbreviation delivers' := (delivers join webpack terser_minify).
Local Abbreviation safe' := (safe join webpack terser_minify).

(** *** Jobs deliver their files *)

Lemma copy_file_result (src dest : string) (w : World) (x : unit) :
  (perform' (CopyFile src dest) w).2 = inl x ->
  exists data,
    files w !! src = Some data
    /\ files (perform' (CopyFile src dest) w).1 = <[dest := data]> (files w).
Proof.
  unfold perform. cbn. destruct (files w !! src) as [data|]; cbn.
  - intros _. eauto.
  - discriminate.
Qed.

Lemma delivers_copy_into (out src : string) :
  delivers' out (Do (CopyFile src out) (fun _ => Ret Resolve)).
Proof.
  cbn -[perform]. intros w x Hok. split; [intros _|exact I].
  destruct (copy_file_result src out w x Hok) as (data & _ & ->).
  rewrite lookup_insert_eq. eauto.
Qed.

Lemma delivers_copy_from (out dest : string) :
  delivers' out (Do (CopyFile out dest) (fun _ => Ret Resolve)).
Proof.
  cbn -[perform]. intros w x Hok. split; [intros _|exact I].
  destruct (copy_file_result out dest w x Hok) as (data & Hsrc & ->).
  destruct (decide (dest = out)) as [->|Hne].
  - rewrite lookup_insert_eq. eauto.
  - rewrite lookup_insert_ne by assumption. eauto.
Qed.

Lemma delivers_write (out data : string) :
  delivers' out (Do (WriteFile out data) (fun _ => Ret Resolve)).
Proof.
  cbn. intros w x _. split; [intros _|exact I].
  rewrite lookup_insert_eq. eauto.
Qed.

(** An operation after which the job has not yet resolved. *)
Lemma delivers_later {X : Type} (out : string) (op : Op X)
    (k : X -> Prog Settlement) :
  (forall x, k x <> Ret Resolve) ->
  (forall x, delivers' out (k x)) ->
  delivers' out (Do op k).
Proof.
  intros Hnot Hk. cbn -[perform]. intros w x _. split; [|apply Hk].
  intros Hres. now destruct (Hnot x).
Qed.

Lemma on_stats_not_resolved (opts : BuildOptions) (outputFile cachedFile : string)
    (st : option Stats) :
  on_stats opts outputFile cachedFile st <> Ret Resolve.
Proof.
  unfold on_stats. destruct st as [st|]; [|discriminate].
  destruct (hasErrors st); [discriminate|].
  destruct (isProd opts); discriminate.
Qed.

Lemma on_compiled_not_resolved (opts : BuildOptions) (outputFile cachedFile : string)
    (err : option JsError) (st : option Stats) :
  on_compiled opts outputFile cachedFile err st <> Ret Resolve.
Proof.
  unfold on_compiled. destruct err as [e|].
  - destruct (negb _); [discriminate|apply on_stats_not_resolved].
  - apply on_stats_not_resolved.
Qed.

Lemma on_stats_delivers_output (opts : BuildOptions) (outputFile cachedFile : string)
    (st : option Stats) :
  delivers' outputFile (on_stats opts outputFile cachedFile st).
Proof.
  unfold on_stats. destruct st as [st|]; [|exact I].
  destruct (hasErrors st); [exact I|].
  destruct (isProd opts).
  - apply delivers_later; [discriminate|]. intros code.
    apply delivers_later.
    + intros [error|code']; discriminate.
    + intros [error|code']; [exact I|]. apply delivers_write.
  - apply delivers_copy_from.
Qed.

Lemma on_stats_delivers_cache (opts : BuildOptions) (outputFile cachedFile : string)
    (st : option Stats) :
  isProd opts = false ->
  delivers' cachedFile (on_stats opts outputFile cachedFile st).
Proof.
  intros Hdev. unfold on_stats. destruct st as [st|]; [|exact I].
  destruct (hasErrors st); [exact I|].
  rewrite Hdev. apply delivers_copy_into.
Qed.

Lemma bundleExternal_delivers (opts : BuildOptions)
    (outputDir cachedDir entryFileName : string) :
  delivers' (join [outputDir; entryFileName])
    (bundleExternal join require_resolve opts outputDir cachedDir entryFileName)
  /\ (isProd opts = false ->
      delivers' (join [cachedDir; entryFileName])
        (bundleExternal join require_resolve opts outputDir cachedDir entryFileName)).
Proof.
  assert (Hcompile : forall out,
            (forall err st,
               delivers' out
                 (on_compiled opts (join [outputDir; entryFileName])
                    (join [cachedDir; entryFileName]) err st)) ->
            delivers' out
              (compile join require_resolve opts outputDir entryFileName
                 (join [outputDir; entryFileName]) (join [cachedDir; entryFileName]))).
  { intros out Hrest. unfold compile.
    apply delivers_later.
    - intros r. apply on_compiled_not_resolved.
    - intros r. apply Hrest. }
  assert (Hout : forall err st,
            delivers' (join [outputDir; entryFileName])
              (on_compiled opts (join [outputDir; entryFileName])
                 (join [cachedDir; entryFileName]) err st)).
  { intros err st. unfold on_compiled. destruct err as [e|].
    - destruct (negb _); [exact I|apply on_stats_delivers_output].
    - apply on_stats_delivers_output. }
  assert (Hcache : isProd opts = false -> forall err st,
            delivers' (join [cachedDir; entryFileName])
              (on_compiled opts (join [outputDir; entryFileName])
                 (join [cachedDir; entryFileName]) err st)).
  { intros Hdev err st. unfold on_compiled. destruct err as [e|].
    - destruct (negb _); [exact I|now apply on_stats_delivers_cache].
    - now apply on_stats_delivers_cache. }
  unfold bundleExternal. split.
  - destruct (isProd opts); cbn [negb].
    + apply Hcompile, Hout.
    + apply delivers_later.
      * intros [|]; [discriminate|]. unfold compile. discriminate.
      * intros [|]; [apply delivers_copy_into|apply Hcompile, Hout].
  - intros Hdev. rewrite Hdev. cbn [negb].
    apply delivers_later.
    + intros [|]; [discriminate|]. unfold compile. discriminate.
    + intros [|]; [apply delivers_copy_from|apply Hcompile, Hcache; assumption].
Qed.

(** Each job is bound to deliver its file, and the jobs that have resolved
    have done so. *)
Local Abbreviation have_delivered outs b :=
  (Forall2 (fun out job =>
              delivers' out job
              /\ (job = Ret Resolve -> is_Some (files (world b) !! out)))
           outs (jobs b)).

Lemma step_delivers (outs : list string) (i : nat) (b : Batch) :
  have_delivered outs b -> have_delivered outs (step' i b).
Proof.
  intros Hinv. unfold step.
  destruct (jobs b !! i) as [[s|e|X op k]|] eqn:Hi; try exact Hinv.
  pose proof (perform_grows join webpack terser_minify op (world b)) as Hgrow.
  apply Forall2_same_length_lookup in Hinv as [Hlen Hinv].
  assert (Hjob : forall out, outs !! i = Some out -> delivers' out (Do op k))
    by (intros out Hout; exact (proj1 (Hinv i out _ Hout Hi))).
  cbn -[perform] in Hjob.
  destruct (perform' op (world b)) as [w' r] eqn:Hperf. cbn in *.
  apply Forall2_same_length_lookup. split.
  { now rewrite length_insert. }
  intros j out job Hout Hj.
  destruct (decide (j = i)) as [->|Hne].
  - rewrite list_lookup_insert_eq in Hj by (eapply lookup_lt_Some; eassumption).
    injection Hj as <-.
    destruct r as [x|e].
    + specialize (Hjob out Hout (world b) x). rewrite Hperf in Hjob.
      destruct (Hjob eq_refl) as [Hdone Hdel]. split; assumption.
    + split; [exact I|discriminate].
  - rewrite list_lookup_insert_ne in Hj by congruence.
    destruct (Hinv j out job Hout Hj) as [Hdel Hdone]. split; [assumption|].
    intros Hres. specialize (Hdone Hres).
    apply elem_of_dom. apply elem_of_dom in Hdone. now apply Hgrow.
Qed.

Lemma run_schedule_delivers (outs : list string) (schedule : list nat) (b : Batch) :
  have_delivered outs b -> have_delivered outs (run_schedule' schedule b).
Proof.
  revert b. induction schedule as [|i schedule IH]; intros b Hinv; [assumption|].
  change (run_schedule' (i :: schedule) b) with (run_schedule' schedule (step' i b)).
  apply IH, step_delivers, Hinv.
Qed.

Lemma bundleExternal_running (opts : BuildOptions)
    (outputDir cachedDir entryFileName : string) :
  ~ ended (bundleExternal join require_resolve opts outputDir cachedDir entryFileName).
Proof.
  unfold bundleExternal, compile. destruct (isProd opts); cbn; auto.
Qed.

Lemma resolved_jobs_delivered (outs : list string) (b : Batch) :
  have_delivered outs b ->
  Forall (fun job => job = Ret Resolve) (jobs b) ->
  Forall (fun out => is_Some (files (world b) !! out)) outs.
Proof.
  intros Hinv Hall.
  apply Forall2_same_length_lookup in Hinv as [Hlen Hinv].
  apply Forall_lookup. intros i out Hout.
  destruct (lookup_lt_is_Some_2 (jobs b) i) as [job Hjob].
  { rewrite <- Hlen. eapply lookup_lt_Some; eassumption. }
  rewrite Forall_lookup in Hall.
  exact (proj2 (Hinv i out job Hout Hjob) (Hall i job Hjob)).
Qed.

Lemma external_bundles_deliver (opts : BuildOptions) (w : World) :
  let bundles :=
    promise_all w (external_bundles join require_resolve opts
                     (join [transpiledDir opts; "sys-node-bundle-cache"])) in
  have_delivered (bundle_outputs join opts) bundles
  /\ (isProd opts = false -> have_delivered (bundle_caches join opts) bundles).
Proof.
  unfold promise_all. cbn [world jobs].
  unfold external_bundles, bundle_outputs, bundle_caches, bundle_names. cbn [map].
  split; [|intros Hdev];
    repeat (constructor;
            [split;
             [solve [apply bundleExternal_delivers
                    |now apply bundleExternal_delivers]
             |let Hres := fresh in
              intros Hres;
              match type of Hres with
              | bundleExternal _ _ ?o ?out ?c ?name = _ =>
                  destruct (bundleExternal_running o out c name); now rewrite Hres
              end]
            |]);
    constructor.
Qed.

Lemma copy_assets_result (opts : BuildOptions) (w w2 : World) (u : unit) :
  exec' (copy_assets join opts) w = (w2, inl u) ->
  Forall (fun p => is_Some (files w2 !! p)) (asset_copies join opts).
Proof.
  unfold copy_assets, asset_copies, perform. cbn.
  destruct (files w !! _) as [vbs|]; cbn; [|discriminate].
  destruct (_ !! join [nodeModulesDir opts; "open"; "xdg-open"]) as [xdg|]; cbn;
    [|discriminate].
  intros [= <- _]. cbn. repeat constructor.
  - destruct (decide (join [devServerDir (output opts); "xdg-open"]
                      = join [devServerDir (output opts); "visualstudio.vbs"]))
      as [->|Hne].
    + rewrite lookup_insert_eq. eauto.
    + rewrite lookup_insert_ne by assumption. rewrite lookup_insert_eq. eauto.
  - rewrite lookup_insert_eq. eauto.
Qed.

(** When the build fulfils its promise, every artifact is in place: the
    seven bundles in their output directories and the two assets in the
    dev-server directory; after a non-production build the seven cache
    entries are there too, so the next such build compiles nothing. *)
Theorem fulfilled_build_has_every_artifact (opts : BuildOptions)
    (schedule : list nat) (w : World) :
  let result :=
    sysNodeExternalBundles join require_resolve webpack terser_minify
      opts schedule w in
  result.2 = Fulfilled ->
  Forall (fun p => is_Some (files result.1 !! p))
    (bundle_outputs join opts ++ asset_copies join opts)
  /\ (isProd opts = false ->
      Forall (fun p => is_Some (files result.1 !! p)) (bundle_caches join opts)).
Proof.
  intros result. subst result.
  unfold sysNodeExternalBundles, perform.
  cbn -[exec copy_assets run_schedule promise_all external_bundles
        bundle_outputs bundle_caches asset_copies].
  destruct (files w !! _) as [data|]; [discriminate|].
  set (w1 := log _ w).
  destruct (external_bundles_deliver opts w1) as [Houts Hcaches].
  set (b := run_schedule' schedule _).
  pose proof (run_schedule_reflects_jobs join webpack terser_minify schedule
                (promise_all w1 (external_bundles join require_resolve opts
                   (join [transpiledDir opts; "sys-node-bundle-cache"])))
                (promise_all_reflects_jobs w1 _)) as (_ & _ & Hful).
  fold b in Hful.
  destruct (all b) eqn:Hall; try discriminate.
  assert (Hres : Forall (fun job => job = Ret Resolve) (jobs b)) by now apply Hful.
  pose proof (exec_grows join webpack terser_minify (copy_assets join opts) (world b))
    as Hgrow.
  pose proof (copy_assets_result opts (world b)) as Hassets.
  destruct (exec' (copy_assets join opts) (world b)) as [w2 [u|e]];
    [|discriminate].
  intros _. cbn [fst snd] in *.
  assert (Hkeep : forall outs,
            Forall (fun out => is_Some (files (world b) !! out)) outs ->
            Forall (fun out => is_Some (files w2 !! out)) outs).
  { intros outs Houts'. eapply Forall_impl; [exact Houts'|]. intros out Hout.
    apply elem_of_dom. apply elem_of_dom in Hout. now apply Hgrow. }
  split.
  - apply Forall_app. split.
    + apply Hkeep, (resolved_jobs_delivered _ b); [|assumption].
      now apply run_schedule_delivers.
    + exact (Hassets w2 u eq_refl).
  - intros Hdev.
    apply Hkeep, (resolved_jobs_delivered _ b); [|assumption].
    now apply run_schedule_delivers, Hcaches.
Qed.

(** *** Which errors surface *)

Lemma bundleExternal_never_copies (opts : BuildOptions)
    (outputDir cachedDir entryFileName : string) :
  never is_copy
    (bundleExternal join require_resolve opts outputDir cachedDir entryFileName).
Proof.
  unfold bundleExternal, compile, on_compiled, on_stats.
  destruct (isProd opts); cbn;
    repeat match goal with
           | |- _ /\ _ => split
           | |- ~ _ => intros []
           | |- forall _, _ => intro
           | |- True => exact I
           | |- context [match ?x with _ => _ end] => destruct x; cbn
           end.
Qed.

Lemma copy_assets_exception (opts : BuildOptions) (w w2 : World) (e : JsException) :
  exec' (copy_assets join opts) w = (w2, inr e) ->
  e = ENOENT (join [nodeModulesDir opts; "open-in-editor"; "lib"; "editors";
                    "visualstudio.vbs"])
  \/ e = ENOENT (join [nodeModulesDir opts; "open"; "xdg-open"]).
Proof.
  unfold copy_assets, perform. cbn.
  destruct (files w !! _) as [vbs|]; cbn; [|intros [= _ <-]; auto].
  destruct (_ !! join [nodeModulesDir opts; "open"; "xdg-open"]) as [xdg|]; cbn;
    [discriminate|intros [= _ <-]; auto].
Qed.

(** The two assets are copied only when every job has resolved. The
    promise of the build is rejected with an exception only for the
    directory that could not be ensured or for an asset that is missing
    once every job has resolved: an exception thrown inside a job never
    surfaces. A build one of whose jobs threw stays pending, unless a
    sibling rejects it. *)
Theorem only_setup_and_asset_exceptions_surface (opts : BuildOptions)
    (schedule : list nat) (w : World) :
  let cachedDir := join [transpiledDir opts; "sys-node-bundle-cache"] in
  let w1 := log (Ev (EnsureDir cachedDir)) w in
  let bundles :=
    run_schedule' schedule
      (promise_all w1 (external_bundles join require_resolve opts cachedDir)) in
  let result :=
    sysNodeExternalBundles join require_resolve webpack terser_minify
      opts schedule w in
  (Exists is_copy (events_since w result.1) ->
   Forall (fun job => job = Ret Resolve) (jobs bundles))
  /\ (forall e,
      result.2 = Rejected (inr e) ->
      (e = EEXIST cachedDir /\ is_Some (files w !! cachedDir))
      \/ (Forall (fun job => job = Ret Resolve) (jobs bundles)
          /\ (e = ENOENT (join [nodeModulesDir opts; "open-in-editor"; "lib";
                               "editors"; "visualstudio.vbs"])
              \/ e = ENOENT (join [nodeModulesDir opts; "open"; "xdg-open"]))))
  /\ (files w !! cachedDir = None ->
      forall i e,
        jobs bundles !! i = Some (Raise e) ->
        result.2 = Pending \/ exists reason, result.2 = Rejected (inl reason)).
Proof.
  intros cachedDir w1 bundles result.
  pose proof (run_schedule_reflects_jobs join webpack terser_minify schedule
                (promise_all w1 (external_bundles join require_resolve opts cachedDir))
                (promise_all_reflects_jobs w1 _)) as (_ & _ & Hful).
  fold bundles in Hful.
  assert (Hjobs : Forall (never is_copy)
                    (external_bundles join require_resolve opts cachedDir)).
  { unfold external_bundles. repeat constructor; apply bundleExternal_never_copies. }
  destruct (run_schedule_trace join webpack terser_minify is_copy schedule
              (promise_all w1 (external_bundles join require_resolve opts cachedDir))
              Hjobs) as (evs & Htr & Hnone).
  fold bundles in Htr. cbn in Htr.
  subst result. unfold sysNodeExternalBundles, perform.
  cbn -[exec copy_assets run_schedule promise_all external_bundles].
  fold cachedDir. destruct (files w !! cachedDir) as [data|] eqn:Hdir.
  - repeat apply conj.
    + rewrite (events_since_app w _ [Ev (EnsureDir cachedDir)]) by reflexivity.
      intros Hex. apply Exists_cons in Hex as [[]|Hex]. now apply Exists_nil in Hex.
    + intros e [= <-]. left. eauto.
    + discriminate.
  - fold w1. fold bundles.
    assert (Hquiet : ~ Exists is_copy (Ev (EnsureDir cachedDir) :: evs)).
    { intros Hex. apply Exists_cons in Hex as [[]|Hex].
      apply Exists_exists in Hex as (ev & Hin & Hev).
      rewrite Forall_forall in Hnone. exact (Hnone ev Hin Hev). }
    assert (Hsince : events_since w (world bundles) = Ev (EnsureDir cachedDir) :: evs).
    { apply events_since_app. rewrite Htr, <- app_assoc. reflexivity. }
    destruct (all bundles) as [| |reason] eqn:Hall; cbn [fst snd].
    + repeat apply conj.
      * rewrite Hsince. intros Hex. now destruct Hquiet.
      * discriminate.
      * auto.
    + assert (Hres : Forall (fun job => job = Ret Resolve) (jobs bundles))
        by now apply Hful.
      pose proof (copy_assets_exception opts (world bundles)) as Hexn.
      destruct (exec' (copy_assets join opts) (world bundles)) as [w2 [[]|e]];
        cbn [fst snd]; repeat apply conj; auto.
      * discriminate.
      * intros _ i e Hi. rewrite Forall_lookup in Hres.
        specialize (Hres i _ Hi). discriminate.
      * intros e' [= <-]. right. split; [assumption|]. exact (Hexn w2 e eq_refl).
      * intros _ i e' Hi. rewrite Forall_lookup in Hres.
        specialize (Hres i _ Hi). discriminate.
    + repeat apply conj.
      * rewrite Hsince. intros Hex. now destruct Hquiet.
      * discriminate.
      * eauto.
Qed.

(** *** The build settles *)








(** *** sysNode and the bundles it relies on *)

(** Every bundle of [sysNode] is written into [opts.output.sysNodeDir], and
    every relative path its plugins redirect a module to ([./glob.js],
    [./graceful-fs.js], [./prompts.js]) names a file that a fulfilled
    [sysNodeExternalBundles] has put into that same directory. *)
Theorem relative_imports_of_sysNode_are_built (opts : BuildOptions)
    (schedule : list nat) (w : World) :
  let result :=
    sysNodeExternalBundles join require_resolve webpack terser_minify
      opts schedule w in
  result.2 = Fulfilled ->
  Forall
    (fun bundle =>
       (exists name,
          file (rollup_output bundle) = join [sysNodeDir (output opts); name])
       /\ Forall
            (fun relativePath =>
               exists name,
                 relativePath = "./" +:+ name
                 /\ is_Some (files result.1 !! join [sysNodeDir (output opts); name]))
            (relative_paths bundle))
    (sysNode join opts).
Proof.
  intros result Hfulfilled.
  destruct (fulfilled_build_has_every_artifact opts schedule w Hfulfilled)
    as [Hthere _].
  fold result in Hthere. rewrite Forall_forall in Hthere.
  assert (Hbuilt : forall name,
            In (true, name) bundle_names ->
            is_Some (files result.1 !! join [sysNodeDir (output opts); name])).
  { intros name Hin. apply Hthere, elem_of_app. left.
    unfold bundle_outputs. apply list_elem_of_In, in_map_iff.
    exists (true, name). split; [reflexivity|assumption]. }
  unfold sysNode. repeat constructor.
  - now exists "index.js".
  - exists "glob.js". split; [reflexivity|]. apply Hbuilt. cbn. tauto.
  - exists "graceful-fs.js". split; [reflexivity|]. apply Hbuilt. cbn. tauto.
  - exists "prompts.js". split; [reflexivity|]. apply Hbuilt. cbn. tauto.
  - now exists "worker.js".
Qed.

End BuildFacts.

(** *** The statements above on the sample environment *)

Lemma fulfilled_production_run_ships_minified_witness :
  isProd (Sample.opts true) = true
  /\ (run_job Sample.join Sample.resolve_all Sample.webpack_ok Sample.terser_ok
        (Sample.opts true) "sys/node" "build/sys-node-bundle-cache" "glob.js"
        Sample.cached_world).2 = Fulfilled
  /\ exists code code',
      Sample.terser_ok code = Minified code'
      /\ files (run_job Sample.join Sample.resolve_all Sample.webpack_ok
                  Sample.terser_ok (Sample.opts true) "sys/node"
                  "build/sys-node-bundle-cache" "glob.js"
                  Sample.cached_world).1 !! "sys/node/glob.js"
         = Some code'.
Proof.
  split; [reflexivity|]. split; [reflexivity|].
  destruct (fulfilled_production_run_ships_minified Sample.join Sample.resolve_all
              Sample.webpack_ok Sample.terser_ok (Sample.opts true)
              "sys/node" "build/sys-node-bundle-cache" "glob.js"
              Sample.cached_world eq_refl eq_refl)
    as (code & code' & _ & Hmin & Hout).
  exists code, code'. split; assumption.
Defined.

Lemma dev_rerun_changes_nothing_witness :
  isProd (Sample.opts false) = false
  /\ (run_job Sample.join Sample.resolve_all Sample.webpack_ok Sample.terser_ok
        (Sample.opts false) "sys/node" "build/sys-node-bundle-cache" "glob.js"
        Sample.empty_world).2 = Fulfilled
  /\ files
       (run_job Sample.join Sample.resolve_all Sample.webpack_ok Sample.terser_ok
          (Sample.opts false) "sys/node" "build/sys-node-bundle-cache" "glob.js"
          (run_job Sample.join Sample.resolve_all Sample.webpack_ok Sample.terser_ok
             (Sample.opts false) "sys/node" "build/sys-node-bundle-cache" "glob.js"
             Sample.empty_world).1).1
     = files
         (run_job Sample.join Sample.resolve_all Sample.webpack_ok Sample.terser_ok
            (Sample.opts false) "sys/node" "build/sys-node-bundle-cache" "glob.js"
            Sample.empty_world).1.
Proof.
  split; [reflexivity|]. split; [reflexivity|].
  exact (proj1 (proj2
    (dev_rerun_changes_nothing Sample.join Sample.resolve_all Sample.webpack_ok
       Sample.terser_ok (Sample.opts false) "sys/node" "build/sys-node-bundle-cache"
       "glob.js" Sample.empty_world eq_refl eq_refl))).
Defined.

Lemma fulfilled_build_has_every_artifact_witness :
  (sysNodeExternalBundles Sample.join Sample.resolve_all Sample.webpack_ok
     Sample.terser_ok (Sample.opts false) Sample.round_robin Sample.assets_world).2
  = Fulfilled
  /\ Forall
       (fun p =>
          is_Some
            (files (sysNodeExternalBundles Sample.join Sample.resolve_all
                      Sample.webpack_ok Sample.terser_ok (Sample.opts false)
                      Sample.round_robin Sample.assets_world).1 !! p))
       (bundle_caches Sample.join (Sample.opts false)).
Proof.
  assert (Hfulfilled :
            (sysNodeExternalBundles Sample.join Sample.resolve_all Sample.webpack_ok
               Sample.terser_ok (Sample.opts false) Sample.round_robin
               Sample.assets_world).2 = Fulfilled)
    by (vm_compute; reflexivity).
  split; [exact Hfulfilled|].
  exact (proj2
    (fulfilled_build_has_every_artifact Sample.join Sample.resolve_all
       Sample.webpack_ok Sample.terser_ok (Sample.opts false) Sample.round_robin
       Sample.assets_world Hfulfilled) eq_refl).
Defined.

Lemma relative_imports_of_sysNode_are_built_witness :
  (sysNodeExternalBundles Sample.join Sample.resolve_all Sample.webpack_ok
     Sample.terser_ok (Sample.opts true)
     (Sample.round_robin ++ seq 0 7) Sample.assets_world).2
  = Fulfilled
  /\ exists bundle,
      head (sysNode Sample.join (Sample.opts true)) = Some bundle
      /\ relative_paths bundle = ["./glob.js"; "./graceful-fs.js"; "./prompts.js"]
      /\ Forall
           (fun relativePath =>
              exists name,
                relativePath = "./" +:+ name
                /\ is_Some
                     (files (sysNodeExternalBundles Sample.join Sample.resolve_all
                               Sample.webpack_ok Sample.terser_ok (Sample.opts true)
                               (Sample.round_robin ++ seq 0 7)
                               Sample.assets_world).1
                      !! Sample.join [sysNodeDir (output (Sample.opts true)); name]))
           (relative_paths bundle).
Proof.
  assert (Hfulfilled :
            (sysNodeExternalBundles Sample.join Sample.resolve_all Sample.webpack_ok
               Sample.terser_ok (Sample.opts true) (Sample.round_robin ++ seq 0 7)
               Sample.assets_world).2 = Fulfilled)
    by (vm_compute; reflexivity).
  split; [exact Hfulfilled|].
  pose proof (relative_imports_of_sysNode_are_built Sample.join Sample.resolve_all
                Sample.webpack_ok Sample.terser_ok (Sample.opts true)
                (Sample.round_robin ++ seq 0 7) Sample.assets_world Hfulfilled)
    as Hall.
  apply Forall_cons in Hall as [[_ Hhost] _].
  eexists. split; [reflexivity|]. split; [reflexivity|]. exact Hhost.
Defined.


